(** * AI Health Monitor: the analytical core of [health_app_py.py]

    A shallow embedding of [HealthMonitor] (synthetic data generation,
    anomaly flagging, health score, rule-based insights) and the
    properties its specification states about it.

    Numeric model.  The program computes with IEEE binary64 values
    (NumPy arrays, pandas columns).  Here a float is an exact rational
    [Q]: every operation of the source is written with the same
    operands in the same order, and rounding to the nearest binary64
    value after each operation is not modelled.  Where an exact value
    lies halfway between two tenths, the program's [round(x, 1)] sees
    the binary64 neighbour of that value and may go either way: what is
    stated about a rounded result is that it is a nearest tenth, not
    which one at a tie.  Integers ([int], [int64]) are [Z], with the
    64-bit wrap-around written out where the source computes on an
    [int64] scalar; instants are nanoseconds since the epoch, as in
    pandas, and the limits of [timedelta], [datetime] and
    [pd.Timestamp] are written out where the source builds a date. *)

From Stdlib Require Import ZArith QArith Qround Qabs Qminmax Lqa Lia String.
From stdpp Require Import base list.

Local Open Scope Q_scope.

(** ** Python exceptions and results *)

Inductive PyError : Type :=
| IndexError     (* positional indexer out of bounds *)
| ValueError     (* a library call refused its argument *)
| OverflowError. (* a date or a duration out of range *)

Inductive Result (A : Type) : Type :=
| Ok (a : A)
| Err (e : PyError).

Arguments Ok {A} a.
Arguments Err {A} e.

(** ** Scalars *)

(** Python's [max(a, b)]: the first argument unless the second is
    strictly greater. *)
Definition py_max (a b : Q) : Q := if Qlt_le_dec a b then b else a.

(** Python's [min(a, b)]: the first argument unless the second is
    strictly smaller. *)
Definition py_min (a b : Q) : Q := if Qlt_le_dec b a then b else a.

(** [sum(xs)]: left to right from the integer [0]. *)
Definition py_sum (xs : list Q) : Q := foldl Qplus 0 xs.

(** [ndarray.astype(int)] on one element: truncation toward zero. *)
Definition astype_int (q : Q) : Z := Z.quot (Qnum q) (Zpos (Qden q)).

(** [rint]: nearest integer, ties to the even neighbour. *)
Definition rint (q : Q) : Z :=
  let f := Qfloor q in
  match Qcompare (q - inject_Z f) (1 # 2) with
  | Lt => f
  | Gt => (f + 1)%Z
  | Eq => if Z.even f then f else (f + 1)%Z
  end.

(** [round(x, 1)] on a [float64], and [ndarray.round(1)] on one
    element: scale by ten, [rint], scale back. *)
Definition round1 (q : Q) : Q := Qred (inject_Z (rint (q * 10)) / 10).

(** ** Data model *)

(** One row of the data frame. *)
Record Sample : Type := {
  timestamp : Z;
  heart_rate : Z;
  blood_oxygen : Q;
  steps : Z;
  sleep_quality : Q;
  stress_level : Q;
  body_temperature : Q
}.

(** The data frame: its rows in index order, and the [anomaly] column
    once [detect_anomalies] has attached it. *)
Record DataFrame : Type := {
  rows : list Sample;
  anomaly : option (list bool)
}.

(** [data.iloc[-1]]. *)
Definition iloc_last (data : DataFrame) : Result Sample :=
  match last (rows data) with
  | Some r => Ok r
  | None => Err IndexError
  end.

(** [data[col].mean()] of a non-empty numeric column. *)
Definition mean (col : list Q) : Q :=
  py_sum col / inject_Z (Z.of_nat (length col)).

(** ** Health score: [HealthMonitor.calculate_health_score] *)

(** The [heart_rate] of a row is a NumPy [int64] scalar: the integer
    operations of line 179 wrap around at 64 bits, into the range from
    [- 2 ^ 63] to [2 ^ 63 - 1]. *)
Definition int64_wrap (z : Z) : Z :=
  ((z + 9223372036854775808) mod 18446744073709551616
   - 9223372036854775808)%Z.

Definition hr_score (latest : Sample) : Q :=
  let deviation := int64_wrap (Z.abs (int64_wrap (heart_rate latest - 70))) in
  py_max 0 (inject_Z (int64_wrap (100 - int64_wrap (deviation * 2)))).

Definition oxygen_score (latest : Sample) : Q :=
  py_min 100 (blood_oxygen latest * 1.02).

Definition activity_score (latest : Sample) : Q :=
  py_min 100 (inject_Z (steps latest) / 10).

Definition sleep_score (latest : Sample) : Q :=
  sleep_quality latest * 10.

Definition stress_score (latest : Sample) : Q :=
  (10 - stress_level latest) * 10.

Definition temp_score (latest : Sample) : Q :=
  py_max 0 (100 - Qabs (body_temperature latest - 98.6) * 10).

Definition weights : list Q := [0.2; 0.2; 0.15; 0.2; 0.15; 0.1].

Definition scores (latest : Sample) : list Q :=
  [hr_score latest; oxygen_score latest; activity_score latest;
   sleep_score latest; stress_score latest; temp_score latest].

Definition calculate_health_score (data : DataFrame) : Result Q :=
  match iloc_last data with
  | Err e => Err e
  | Ok latest =>
      let health_score :=
        py_sum (map (fun ws => fst ws * snd ws) (zip weights (scores latest))) in
      Ok (round1 health_score)
  end.

(** The tier shown next to the score in [main]. *)
Definition status_of (health_score : Q) : string :=
  if Qlt_le_dec health_score 80 then
    if Qlt_le_dec health_score 60 then "Needs Attention" else "Good"
  else "Excellent".

(** ** Insights: [HealthMonitor.generate_health_insights] *)

Definition MSG_HR_ELEVATED : string :=
  "⚠️ Your heart rate is elevated. Consider relaxation techniques.".
Definition MSG_HR_GREAT : string :=
  "💙 Your resting heart rate looks great!".
Definition MSG_OXYGEN_LOW : string :=
  "🫁 Blood oxygen is low. Consider consulting a healthcare provider.".
Definition MSG_OXYGEN_OK : string :=
  "✅ Blood oxygen levels are healthy.".
Definition MSG_LESS_ACTIVE : string :=
  "🚶‍♂️ You've been less active today. Try a short walk!".
Definition MSG_ACTIVE : string :=
  "🏃‍♂️ Great job staying active today!".
Definition MSG_SLEEP_POOR : string :=
  "😴 Sleep quality could be better. Try a consistent bedtime routine.".
Definition MSG_SLEEP_GOOD : string :=
  "🌙 Excellent sleep quality! Keep it up!".
Definition MSG_STRESS_HIGH : string :=
  "😰 Stress levels are high. Practice deep breathing or meditation.".
Definition MSG_STRESS_LOW : string :=
  "😌 Great job managing stress!".

(** Each rule is the [if]/[elif] (or [if]/[else]) of one category: the
    strings it appends to [insights]. *)

Definition heart_rate_rule (data : DataFrame) (latest_data : Sample) : list string :=
  let avg_hr := mean (map (fun r => inject_Z (heart_rate r)) (rows data)) in
  if Qlt_le_dec (avg_hr + 20) (inject_Z (heart_rate latest_data)) then [MSG_HR_ELEVATED]
  else if Qlt_le_dec (inject_Z (heart_rate latest_data)) (avg_hr - 15) then [MSG_HR_GREAT]
  else [].

Definition oxygen_rule (latest_data : Sample) : list string :=
  if Qlt_le_dec (blood_oxygen latest_data) 95 then [MSG_OXYGEN_LOW]
  else [MSG_OXYGEN_OK].

Definition activity_rule (data : DataFrame) (latest_data : Sample) : list string :=
  let avg_steps := mean (map (fun r => inject_Z (steps r)) (rows data)) in
  if Qlt_le_dec (inject_Z (steps latest_data)) (avg_steps * 0.7) then [MSG_LESS_ACTIVE]
  else if Qlt_le_dec (avg_steps * 1.3) (inject_Z (steps latest_data)) then [MSG_ACTIVE]
  else [].

Definition sleep_rule (latest_data : Sample) : list string :=
  if Qlt_le_dec (sleep_quality latest_data) 6 then [MSG_SLEEP_POOR]
  else if Qlt_le_dec 8 (sleep_quality latest_data) then [MSG_SLEEP_GOOD]
  else [].

Definition stress_rule (latest_data : Sample) : list string :=
  if Qlt_le_dec 7 (stress_level latest_data) then [MSG_STRESS_HIGH]
  else if Qlt_le_dec (stress_level latest_data) 4 then [MSG_STRESS_LOW]
  else [].

Definition generate_health_insights (data : DataFrame) : Result (list string) :=
  match iloc_last data with
  | Err e => Err e
  | Ok latest_data =>
      let insights := [] in
      let insights := insights ++ heart_rate_rule data latest_data in
      let insights := insights ++ oxygen_rule latest_data in
      let insights := insights ++ activity_rule data latest_data in
      let insights := insights ++ sleep_rule latest_data in
      let insights := insights ++ stress_rule latest_data in
      Ok insights
  end.

(** ** Anomaly flags: [HealthMonitor.detect_anomalies] *)

(** scikit-learn is outside the repository.  [StandardScaler] and
    [IsolationForest] enter through their interface: fitting on a matrix
    yields the fitted state and the result, or raises.  The forest is
    constructed with an integer [random_state], so every fit starts from
    a generator seeded with that integer and the labels are a function
    of the arguments shown. *)
Class Sklearn : Type := {
  ScalerFit : Type;
  ForestFit : Type;
  StandardScaler_fit_transform :
    list (list Q) -> Result (ScalerFit * list (list Q));
  IsolationForest_fit_predict :
    Q -> Z -> list (list Q) -> Result (ForestFit * list Z)
}.

Section Detector.
Context `{Sklearn}.

(** The attributes assigned in [__init__] that the core reads or
    writes; the unused classifier has none. *)
Record HealthMonitor : Type := {
  scaler : option ScalerFit;
  contamination : Q;
  random_state : Z;
  anomaly_detector : option ForestFit;
  is_trained : bool
}.

Definition HealthMonitor_init : HealthMonitor :=
  {| scaler := None; contamination := 0.1; random_state := 42;
     anomaly_detector := None; is_trained := false |}.

(** [data[features].values]: one row per sample, the six features in
    the order of the [features] list. *)
Definition features (r : Sample) : list Q :=
  [inject_Z (heart_rate r); blood_oxygen r; inject_Z (steps r);
   sleep_quality r; stress_level r; body_temperature r].

(** [data['anomaly'] = column]: the column replaces an existing one;
    pandas refuses a column whose length is not that of the index. *)
Definition set_anomaly (data : DataFrame) (column : list bool) : Result DataFrame :=
  if decide (length column = length (rows data))
  then Ok {| rows := rows data; anomaly := Some column |}
  else Err ValueError.

Definition detect_anomalies (self : HealthMonitor) (data : DataFrame)
  : Result (HealthMonitor * DataFrame) :=
  let X := map features (rows data) in
  match StandardScaler_fit_transform X with
  | Err e => Err e
  | Ok (fitted_scaler, X_scaled) =>
      match IsolationForest_fit_predict (contamination self) (random_state self) X_scaled with
      | Err e => Err e
      | Ok (fitted_forest, anomalies) =>
          match set_anomaly data (map (fun a => Z.eqb a (-1)) anomalies) with
          | Err e => Err e
          | Ok data' =>
              Ok ({| scaler := Some fitted_scaler;
                     contamination := contamination self;
                     random_state := random_state self;
                     anomaly_detector := Some fitted_forest;
                     is_trained := is_trained self |}, data')
          end
      end
  end.
End Detector.

(** ** Synthetic data: [HealthMonitor.generate_sample_data] *)

(** NumPy's global generator.  [np.random.seed] replaces the state; each
    sampler consumes the state and returns the drawn array with the
    state that follows.  The laws are the samplers' documented
    contracts: the shape of the result, and for the discrete samplers
    the set the values come from. *)
Class NumpyRandom : Type := {
  RandomState : Type;
  (** [np.random.seed(s)] *)
  np_random_seed : Z -> RandomState;
  (** [np.random.normal(loc, scale, size)] *)
  np_random_normal : Q -> Q -> nat -> RandomState -> list Q * RandomState;
  (** [np.random.choice(a, size=size, replace=False)], [a] an integer *)
  np_random_choice : nat -> nat -> RandomState -> list nat * RandomState;
  (** [np.random.choice(values, size=size)] *)
  np_random_choice_from : list Z -> nat -> RandomState -> list Z * RandomState;
  (** [np.random.randint(low, high, size=size)]: [high] is exclusive *)
  np_random_randint : Z -> Z -> nat -> RandomState -> list Z * RandomState;

  np_random_normal_length : forall loc scale size g,
    length (np_random_normal loc scale size g).1 = size;
  np_random_choice_spec : forall a size g, (size <= a)%nat ->
    length (np_random_choice a size g).1 = size /\
    NoDup (np_random_choice a size g).1 /\
    Forall (fun i => (i < a)%nat) (np_random_choice a size g).1;
  np_random_choice_from_spec : forall values size g, values <> [] ->
    length (np_random_choice_from values size g).1 = size /\
    Forall (fun v => v ∈ values) (np_random_choice_from values size g).1;
  np_random_randint_spec : forall low high size g, (low < high)%Z ->
    length (np_random_randint low high size g).1 = size /\
    Forall (fun v => (low <= v < high)%Z) (np_random_randint low high size g).1
}.

(** [np.pi] and [np.sin]. *)
Class NumpyMath : Type := {
  np_pi : Q;
  np_sin : Q -> Q
}.

Definition ns_per_hour : Z := 3600000000000.
Definition ns_per_day : Z := 24 * ns_per_hour.

(** [t.hour] of an instant. *)
Definition hour (t : Z) : Z := ((t / ns_per_hour) mod 24)%Z.

(** [timedelta(days=days)] takes at most 999999999 days either way. *)
Definition timedelta_ok (days : Z) : bool := (Z.abs days <=? 999999999)%Z.

(** [datetime.min] and [datetime.max]: the first instant of year 1 and
    the last microsecond of year 9999. *)
Definition datetime_min : Z := -62135596800000000000.
Definition datetime_max : Z := 253402300799999999000.

Definition datetime_ok (t : Z) : bool :=
  (datetime_min <=? t)%Z && (t <=? datetime_max)%Z.

(** [end_date - timedelta(days=days)], line 74: [OverflowError] when
    [timedelta] refuses the number of days or the difference is not a
    [datetime]. *)
Definition minus_days (end_date days : Z) : Result Z :=
  if timedelta_ok days then
    let start_date := (end_date - days * ns_per_day)%Z in
    if datetime_ok start_date then Ok start_date else Err OverflowError
  else Err OverflowError.

(** [pd.Timestamp.min] and [pd.Timestamp.max]: the instants a signed
    64-bit count of nanoseconds can hold. *)
Definition Timestamp_min : Z := -9223372036854775807.
Definition Timestamp_max : Z := 9223372036854775807.

Definition Timestamp_ok (t : Z) : bool :=
  (Timestamp_min <=? t)%Z && (t <=? Timestamp_max)%Z.

(** [np.linspace(0, stop, num, dtype="int64")]: multiples of
    [stop / (num - 1)], the last one set to [stop], rounded down. *)
Definition np_linspace_int64 (stop : Z) (num : nat) : list Z :=
  let div := (num - 1)%nat in
  map (fun i : nat =>
         if decide (div = 0%nat) then 0%Z
         else if decide (i = div) then stop
         else Qfloor (inject_Z (Z.of_nat i)
                      * (inject_Z stop / inject_Z (Z.of_nat div))))
      (seq 0 num).

(** [pd.date_range(start=start, end=end, periods=periods)]: [periods]
    evenly spaced instants from [start] to [end], both included.  An
    end point outside the nanosecond range is refused
    ([OutOfBoundsDatetime], a [ValueError]), and so is a negative
    [periods]. *)
Definition pd_date_range (start_date end_date periods : Z) : Result (list Z) :=
  if Timestamp_ok start_date && Timestamp_ok end_date then
    if decide (periods < 0)%Z then Err ValueError
    else Ok (map (fun off => (off + start_date)%Z)
                 (np_linspace_int64 (end_date - start_date) (Z.to_nat periods)))
  else Err ValueError.

(** The window of a call is representable: line 74 and the end points
    of line 75 raise nothing. *)
Definition window_representable (now days : Z) : bool :=
  timedelta_ok days && datetime_ok (now - days * ns_per_day)
  && Timestamp_ok (now - days * ns_per_day) && Timestamp_ok now.

(** [np.clip(arr, lo, hi)] and [np.maximum(0, arr)], elementwise. *)
Definition np_clip (arr : list Q) (lo hi : Q) : list Q :=
  map (fun x => Qmin (Qmax x lo) hi) arr.

Definition np_maximum (lo : Q) (arr : list Q) : list Q :=
  map (fun x => Qmax lo x) arr.

(** The six float arrays of the generator. *)
Record Signals : Type := {
  sig_heart_rate : list Q;
  sig_blood_oxygen : list Q;
  sig_steps : list Q;
  sig_sleep_quality : list Q;
  sig_stress_level : list Q;
  sig_body_temp : list Q
}.

(** What the injection step draws. *)
Record Outliers : Type := {
  anomaly_indices : list nat;
  heart_rate_shift : list Z;
  blood_oxygen_drop : list Z
}.

(** [arr[idx]] for an integer index array: [None] when an index is out
    of bounds (NumPy raises [IndexError]). *)
Definition take_at (arr : list Q) (idx : list nat) : option (list Q) :=
  mapM (fun i => arr !! i) idx.

(** [arr[idx] = vals], assignments in index-array order. *)
Fixpoint put_at (arr : list Q) (idx : list nat) (vals : list Q) : list Q :=
  match idx, vals with
  | i :: idx', v :: vals' => put_at (<[i := v]> arr) idx' vals'
  | _, _ => arr
  end.

(** [arr[idx] op= delta] for [op] one of [+], [-]: NumPy reads
    [arr[idx]], combines it with [delta] elementwise, and assigns the
    results back.  An index out of bounds raises [IndexError], arrays of
    different lengths [ValueError]. *)
Definition update_at (op : Q -> Q -> Q) (arr : list Q) (idx : list nat)
    (delta : list Q) : Result (list Q) :=
  match take_at arr idx with
  | None => Err IndexError
  | Some cur =>
      if decide (length idx = length delta)
      then Ok (put_at arr idx (zip_with op cur delta))
      else Err ValueError
  end.

(** [arr[idx] += delta] and [arr[idx] -= delta]. *)
Definition iadd_at := update_at Qplus.
Definition isub_at := update_at Qminus.

(** [int(0.05 * total_samples)]. *)
Definition outlier_count (total_samples : nat) : nat :=
  Z.to_nat (astype_int (0.05 * inject_Z (Z.of_nat total_samples))).

(** The state of a call before the injection step. *)
Record Trace : Type := {
  tr_timestamps : list Z;
  tr_signals : Signals;
  tr_outliers : Outliers
}.

Section Generator.
Context `{NumpyRandom} `{NumpyMath}.

(** [sin((hours - k) * np.pi / 12)], elementwise. *)
Definition circadian (hours : list Z) (k : Z) : list Q :=
  map (fun h => np_sin (inject_Z (h - k) * np_pi / 12)) hours.

(** Lines 80-104: base curve plus noise, clipped, for each signal. *)
Definition clipped_signals (hours : list Z) (g : RandomState)
  : Signals * RandomState :=
  let total_samples := length hours in
  let base_hr := map (fun s => 70 + 10 * s) (circadian hours 6) in
  let '(noise, g) := np_random_normal 0 5 total_samples g in
  let heart_rate := zip_with Qplus base_hr noise in
  let heart_rate := np_clip heart_rate 50 120 in
  let '(noise, g) := np_random_normal 0 1 total_samples g in
  let blood_oxygen := map (fun z => 98 + z) noise in
  let blood_oxygen := np_clip blood_oxygen 85 100 in
  let step_base := map (fun s => 500 + 300 * s) (circadian hours 12) in
  let '(noise, g) := np_random_normal 0 100 total_samples g in
  let steps := np_maximum 0 (zip_with Qplus step_base noise) in
  let '(noise, g) := np_random_normal 0 0.5 total_samples g in
  let sleep_quality :=
    zip_with Qplus (map (fun s => 7 + 2 * s) (circadian hours 2)) noise in
  let sleep_quality := np_clip sleep_quality 0 10 in
  let '(noise, g) := np_random_normal 0 1 total_samples g in
  let stress_level := zip_with Qplus (map (fun q => 10 - q) sleep_quality) noise in
  let stress_level := np_clip stress_level 0 10 in
  let '(noise, g) := np_random_normal 0 0.5 total_samples g in
  let body_temp := map (fun z => 98.6 + z) noise in
  let body_temp := np_clip body_temp 96 102 in
  ({| sig_heart_rate := heart_rate; sig_blood_oxygen := blood_oxygen;
      sig_steps := steps; sig_sleep_quality := sleep_quality;
      sig_stress_level := stress_level; sig_body_temp := body_temp |}, g).

(** The three draws of lines 107-109, in that order. *)
Definition draw_outliers (total_samples : nat) (g : RandomState)
  : Outliers * RandomState :=
  let '(idx, g) :=
    np_random_choice total_samples (outlier_count total_samples) g in
  let '(shift, g) := np_random_choice_from [-20; 30]%Z (length idx) g in
  let '(drop, g) := np_random_randint 5 15 (length idx) g in
  ({| anomaly_indices := idx; heart_rate_shift := shift;
      blood_oxygen_drop := drop |}, g).

(** The two in-place updates of lines 108-109. *)
Definition inject_outliers (s : Signals) (o : Outliers) : Result Signals :=
  match iadd_at (sig_heart_rate s) (anomaly_indices o)
                (map inject_Z (heart_rate_shift o)) with
  | Err e => Err e
  | Ok heart_rate =>
      match isub_at (sig_blood_oxygen s) (anomaly_indices o)
                    (map inject_Z (blood_oxygen_drop o)) with
      | Err e => Err e
      | Ok blood_oxygen =>
          Ok {| sig_heart_rate := heart_rate; sig_blood_oxygen := blood_oxygen;
                sig_steps := sig_steps s; sig_sleep_quality := sig_sleep_quality s;
                sig_stress_level := sig_stress_level s;
                sig_body_temp := sig_body_temp s |}
      end
  end.

(** Row [i] of the returned frame, with the conversions of lines
    113-118. *)
Definition frame_row (timestamps : list Z) (s : Signals) (i : nat) : option Sample :=
  t ← timestamps !! i;
  hr ← sig_heart_rate s !! i;
  ox ← sig_blood_oxygen s !! i;
  st ← sig_steps s !! i;
  sl ← sig_sleep_quality s !! i;
  sr ← sig_stress_level s !! i;
  bt ← sig_body_temp s !! i;
  Some {| timestamp := t; heart_rate := astype_int hr;
          blood_oxygen := round1 ox; steps := astype_int st;
          sleep_quality := round1 sl; stress_level := round1 sr;
          body_temperature := round1 bt |}.

(** [pd.DataFrame({...})]: columns of one length, else [ValueError]. *)
Definition pd_DataFrame (timestamps : list Z) (s : Signals) : Result DataFrame :=
  match mapM (frame_row timestamps s) (seq 0 (length timestamps)) with
  | Some rs =>
      if decide (Forall (fun n => n = length timestamps)
                   [length (sig_heart_rate s); length (sig_blood_oxygen s);
                    length (sig_steps s); length (sig_sleep_quality s);
                    length (sig_stress_level s); length (sig_body_temp s)])
      then Ok {| rows := rs; anomaly := None |}
      else Err ValueError
  | None => Err ValueError
  end.

(** Everything drawn after [np.random.seed(42)], lines 78-109. *)
Definition seeded_draws (hours : list Z) : (Signals * Outliers) * RandomState :=
  let g := np_random_seed 42 in
  let '(s, g) := clipped_signals hours g in
  let '(o, g) := draw_outliers (length hours) g in
  ((s, o), g).

(** [generate_sample_data(days, samples_per_day)], called when
    [datetime.now()] returns [now] and the global generator is in
    state [g]. *)
Definition generate_sample_data (now days samples_per_day : Z) (g : RandomState)
  : Result DataFrame * RandomState :=
  let total_samples := (days * samples_per_day)%Z in
  let end_date := now in
  match minus_days end_date days with
  | Err e => (Err e, g)
  | Ok start_date =>
      match pd_date_range start_date end_date total_samples with
      | Err e => (Err e, g)
      | Ok timestamps =>
          let hours := map hour timestamps in
          let '((s, o), g) := seeded_draws hours in
          (match inject_outliers s o with
           | Err e => Err e
           | Ok s' => pd_DataFrame timestamps s'
           end, g)
      end
  end.

(** What the same call holds just before line 108: the timestamps,
    the clipped signals and the three injection draws. *)
Definition generate_trace (now days samples_per_day : Z) : Result Trace :=
  let total_samples := (days * samples_per_day)%Z in
  let end_date := now in
  match minus_days end_date days with
  | Err e => Err e
  | Ok start_date =>
      match pd_date_range start_date end_date total_samples with
      | Err e => Err e
      | Ok timestamps =>
          let '((s, o), _) := seeded_draws (map hour timestamps) in
          Ok {| tr_timestamps := timestamps; tr_signals := s;
                tr_outliers := o |}
      end
  end.
End Generator.

(** ** Stand-ins for the libraries

    Concrete implementations of the three library interfaces, small
    enough to evaluate by hand.  They fix no property of the program;
    they let it run on concrete inputs. *)

Module StandIn.

(** *** NumPy's generator: a counter *)

(** The [k]-th unit deviate: eleven values between -5/4 and 5/4. *)
Definition deviate (k : nat) : Q :=
  (inject_Z (Z.of_nat ((k * 7) mod 11)) - 5) / 4.

Definition seed (s : Z) : nat := Z.to_nat s.

Definition normal (loc scale : Q) (size : nat) (g : nat) : list Q * nat :=
  (map (fun i => loc + scale * deviate (g + i)) (seq 0 size), (g + size)%nat).

Definition choice (a size : nat) (g : nat) : list nat * nat :=
  (map (fun i => ((g + i) mod a)%nat) (seq 0 size), (g + size)%nat).

Definition choice_from (values : list Z) (size : nat) (g : nat) : list Z * nat :=
  (map (fun i => default 0%Z (values !! ((g + i) mod length values)%nat)) (seq 0 size),
   (g + size)%nat).

Definition randint (low high : Z) (size : nat) (g : nat) : list Z * nat :=
  (map (fun i => (low + Z.of_nat (g + i) mod (high - low))%Z) (seq 0 size),
   (g + size)%nat).

(** *** [np.sin]: Bhaskara's rational approximation

    For [x = (k + r) * pi] with [k] an integer and [0 <= r < 1],
    [(-1)^k * 16 r (1 - r) / (5 - 4 r (1 - r))]; exact at the
    multiples of [pi / 6] and of [pi / 2]. *)
Definition pi : Q := 3.141592653589793.

Definition sin (x : Q) : Q :=
  let t := x / pi in
  let k := Qfloor t in
  let r := t - inject_Z k in
  let p := r * (1 - r) in
  let s := 16 * p / (5 - 4 * p) in
  if Z.even k then s else - s.

(** *** scikit-learn: centring and a distance threshold *)

Definition column (X : list (list Q)) (j : nat) : list Q :=
  map (fun row => default 0 (row !! j)) X.

Definition fit_transform (X : list (list Q))
  : Result (list Q * list (list Q)) :=
  match X with
  | [] => Err ValueError
  | row :: _ =>
      let means := map (fun j => mean (column X j)) (seq 0 (length row)) in
      Ok (means, map (fun r => zip_with Qminus r means) X)
  end.

Definition distance (row : list Q) : Q := py_sum (map Qabs row).

(** A row is labelled [-1] when it lies further from the centre than
    [1 / (5 * contamination)] times the mean distance. *)
Definition fit_predict (contamination : Q) (random_state : Z) (X : list (list Q))
  : Result (Q * list Z) :=
  let threshold := mean (map distance X) / (5 * contamination) in
  Ok (threshold,
      map (fun row => if Qlt_le_dec threshold (distance row) then (-1)%Z else 1%Z) X).

End StandIn.

Definition StandIn_Sklearn : Sklearn := {|
  ScalerFit := list Q;
  ForestFit := Q;
  StandardScaler_fit_transform := StandIn.fit_transform;
  IsolationForest_fit_predict := StandIn.fit_predict
|}.

Definition StandIn_NumpyMath : NumpyMath := {|
  np_pi := StandIn.pi;
  np_sin := StandIn.sin
|}.

(** The counter generator meets the samplers' contracts. *)

Lemma StandIn_normal_length loc scale size g :
  length (StandIn.normal loc scale size g).1 = size.
Proof. cbn. by rewrite length_map, length_seq. Qed.

Lemma StandIn_choice_spec a size g :
  (size <= a)%nat ->
  length (StandIn.choice a size g).1 = size /\
  NoDup (StandIn.choice a size g).1 /\
  Forall (fun i => (i < a)%nat) (StandIn.choice a size g).1.
Proof.
  intros Hle. cbn. split_and!.
  - by rewrite length_map, length_seq.
  - apply NoDup_fmap_2_strong; [|apply NoDup_seq].
    intros x y Hx Hy Heq.
    apply elem_of_seq in Hx, Hy.
    assert (a <> 0)%nat by lia.
    pose proof (Nat.div_mod_eq (g + x) a).
    pose proof (Nat.div_mod_eq (g + y) a).
    assert ((g + x) / a = (g + y) / a \/ (g + x) / a < (g + y) / a
            \/ (g + y) / a < (g + x) / a)%nat as [?|[?|?]] by lia.
    + nia.
    + pose proof (Nat.mod_upper_bound (g + x) a). nia.
    + pose proof (Nat.mod_upper_bound (g + y) a). nia.
  - apply Forall_fmap, Forall_seq. intros j Hj. cbn.
    apply Nat.mod_upper_bound. lia.
Qed.

Lemma StandIn_choice_from_spec (values : list Z) size g :
  values <> [] ->
  length (StandIn.choice_from values size g).1 = size /\
  Forall (fun v => v ∈ values) (StandIn.choice_from values size g).1.
Proof.
  intros Hne. cbn. split.
  - by rewrite length_map, length_seq.
  - apply Forall_fmap, Forall_seq. intros j Hj. cbn.
    assert (length values <> 0)%nat by (destruct values; cbn; [done|lia]).
    destruct (lookup_lt_is_Some_2 values ((g + j) mod length values)) as [v Hv].
    { apply Nat.mod_upper_bound. lia. }
    rewrite Hv. cbn. by eapply list_elem_of_lookup_2.
Qed.

Lemma StandIn_randint_spec low high size g :
  (low < high)%Z ->
  length (StandIn.randint low high size g).1 = size /\
  Forall (fun v => (low <= v < high)%Z) (StandIn.randint low high size g).1.
Proof.
  intros Hlt. cbn. split.
  - by rewrite length_map, length_seq.
  - apply Forall_fmap, Forall_seq. intros j Hj. cbn.
    pose proof (Z.mod_pos_bound (Z.of_nat (g + j)) (high - low)). lia.
Qed.

Definition StandIn_NumpyRandom : NumpyRandom := {|
  RandomState := nat;
  np_random_seed := StandIn.seed;
  np_random_normal := StandIn.normal;
  np_random_choice := StandIn.choice;
  np_random_choice_from := StandIn.choice_from;
  np_random_randint := StandIn.randint;
  np_random_normal_length := StandIn_normal_length;
  np_random_choice_spec := StandIn_choice_spec;
  np_random_choice_from_spec := StandIn_choice_from_spec;
  np_random_randint_spec := StandIn_randint_spec
|}.

(** The generator and the detector over the stand-ins. *)
Definition generate_with_stand_ins (now days samples_per_day : Z) (g : nat)
  : Result DataFrame * nat :=
  @generate_sample_data StandIn_NumpyRandom StandIn_NumpyMath
    now days samples_per_day g.

Definition trace_with_stand_ins (now days samples_per_day : Z) : Result Trace :=
  @generate_trace StandIn_NumpyRandom StandIn_NumpyMath now days samples_per_day.

Definition detect_with_stand_ins
  : @HealthMonitor StandIn_Sklearn -> DataFrame ->
    Result (@HealthMonitor StandIn_Sklearn * DataFrame) :=
  @detect_anomalies StandIn_Sklearn.

(** ** Domains and concrete inputs *)

(** A sample within the domains the data model states. *)
Definition in_domain (s : Sample) : Prop :=
  (50 <= heart_rate s <= 120)%Z /\
  85 <= blood_oxygen s <= 100 /\
  (0 <= steps s)%Z /\
  0 <= sleep_quality s <= 10 /\
  0 <= stress_level s <= 10 /\
  96 <= body_temperature s <= 102.

(** All six arrays have [n] elements. *)
Definition signals_length (s : Signals) (n : nat) : Prop :=
  length (sig_heart_rate s) = n /\ length (sig_blood_oxygen s) = n /\
  length (sig_steps s) = n /\ length (sig_sleep_quality s) = n /\
  length (sig_stress_level s) = n /\ length (sig_body_temp s) = n.

(** Every element of every array is within its domain. *)
Definition signals_clipped (s : Signals) : Prop :=
  Forall (fun x => 50 <= x <= 120) (sig_heart_rate s) /\
  Forall (fun x => 85 <= x <= 100) (sig_blood_oxygen s) /\
  Forall (fun x => 0 <= x) (sig_steps s) /\
  Forall (fun x => 0 <= x <= 10) (sig_sleep_quality s) /\
  Forall (fun x => 0 <= x <= 10) (sig_stress_level s) /\
  Forall (fun x => 96 <= x <= 102) (sig_body_temp s).

(** What NumPy's contracts give for the injection draws over [n]
    samples. *)
Definition outliers_drawn (o : Outliers) (n : nat) : Prop :=
  length (anomaly_indices o) = outlier_count n /\
  NoDup (anomaly_indices o) /\
  Forall (fun i => (i < n)%nat) (anomaly_indices o) /\
  length (heart_rate_shift o) = length (anomaly_indices o) /\
  Forall (fun v => v = (-20)%Z \/ v = 30%Z) (heart_rate_shift o) /\
  length (blood_oxygen_drop o) = length (anomaly_indices o) /\
  Forall (fun d => (5 <= d <= 14)%Z) (blood_oxygen_drop o).

(** The bounds of a sample that the injection step has moved. *)
Definition in_outlier_range (s : Sample) : Prop :=
  (30 <= heart_rate s <= 150)%Z /\
  71 <= blood_oxygen s <= 95 /\
  (0 <= steps s)%Z /\
  0 <= sleep_quality s <= 10 /\
  0 <= stress_level s <= 10 /\
  96 <= body_temperature s <= 102.

(** The specification's count of injected outliers: 5% of the samples,
    rounded up.  Compared with [outlier_count], which is the code's. *)
Definition spec_outlier_count (total_samples : nat) : nat :=
  Z.to_nat (Qceiling (0.05 * inject_Z (Z.of_nat total_samples))).

(** [data['steps'].mean()]. *)
Definition mean_steps (data : DataFrame) : Q :=
  mean (map (fun r => inject_Z (steps r)) (rows data)).

(** The sample of the specification's scoring scenario. *)
Definition scenario : Sample :=
  {| timestamp := 0; heart_rate := 70; blood_oxygen := 98; steps := 1000;
     sleep_quality := 8; stress_level := 3; body_temperature := 98.6 |}.

Definition scenario_fields (s : Sample) : Prop :=
  heart_rate s = 70%Z /\ blood_oxygen s == 98 /\ steps s = 1000%Z /\
  sleep_quality s == 8 /\ stress_level s == 3 /\ body_temperature s == 98.6.

Definition scenario_frame : DataFrame :=
  {| rows := [scenario]; anomaly := None |}.

(** Two frames with the same latest sample and different step means
    (550 and 5500). *)
Definition idle_history : DataFrame :=
  {| rows := [ {| timestamp := -1; heart_rate := 70; blood_oxygen := 98;
                  steps := 100; sleep_quality := 8; stress_level := 3;
                  body_temperature := 98.6 |}; scenario ];
     anomaly := None |}.

Definition busy_history : DataFrame :=
  {| rows := [ {| timestamp := -1; heart_rate := 70; blood_oxygen := 98;
                  steps := 10000; sleep_quality := 8; stress_level := 3;
                  body_temperature := 98.6 |}; scenario ];
     anomaly := None |}.

(** ** Further definitions *)

(** The weighted sum of line 190, before rounding. *)
Definition weighted_score (latest : Sample) : Q :=
  py_sum (map (fun ws => fst ws * snd ws) (zip weights (scores latest))).

(** [data['heart_rate'].mean()]. *)
Definition mean_heart_rate (data : DataFrame) : Q :=
  mean (map (fun r => inject_Z (heart_rate r)) (rows data)).

(** ** The dashboard's derived values: [main] *)


(** The rows with their anomaly flags; [None] when the frame has no
    [anomaly] column (pandas raises [KeyError] on [data['anomaly']]). *)
Definition flagged_rows (data : DataFrame) : option (list (Sample * bool)) :=
  flags ← anomaly data; Some (zip (rows data) flags).

(** [data[data['anomaly'] == True]], line 318. *)
Definition anomalies (data : DataFrame) : option (list Sample) :=
  rf ← flagged_rows data; Some ((filter (fun p => p.2 = true) rf).*1).





(** The two-row dataset the generator returns over the stand-ins at
    clock reading 0 for one day at two samples a day, and the same with
    an anomaly column. *)
Definition two_samples : DataFrame :=
  {| rows := [ {| timestamp := -86400000000000; heart_rate := 63;
                  blood_oxygen := 484 # 5; steps := 450;
                  sleep_quality := 61 # 10; stress_level := 49 # 10;
                  body_temperature := 981 # 10 |};
               {| timestamp := 0; heart_rate := 58;
                  blood_oxygen := 197 # 2; steps := 625;
                  sleep_quality := 28 # 5; stress_level := 22 # 5;
                  body_temperature := 99 |} ];
     anomaly := None |}.

Definition two_samples_flagged : DataFrame :=
  {| rows := rows two_samples; anomaly := Some [true; false] |}.


(** A monitor that has been fitted before. *)
Definition used_monitor : @HealthMonitor StandIn_Sklearn :=
  @Build_HealthMonitor StandIn_Sklearn
    (Some ([70; 98] : list Q)) 0.1 42 (Some (3 : Q)) false.

(** * Properties *)

(** ** Scalars *)

(** Division by the literal ten as a product, for linear arithmetic. *)
Ltac tenths := unfold Qdiv in *; change (/ 10) with (1 # 10) in *.

Lemma py_max_spec a b :
  (a < b /\ py_max a b = b) \/ (b <= a /\ py_max a b = a).
Proof. unfold py_max. destruct (Qlt_le_dec a b); auto. Qed.

Lemma py_min_spec a b :
  (b < a /\ py_min a b = b) \/ (a <= b /\ py_min a b = a).
Proof. unfold py_min. destruct (Qlt_le_dec b a); auto. Qed.

Lemma Qfloor_lower k q : inject_Z k <= q -> (k <= Qfloor q)%Z.
Proof.
  intros Hk. rewrite <- (Qfloor_Z k). by apply Qfloor_resp_le.
Qed.

Lemma Qfloor_upper k q : q <= inject_Z k -> (Qfloor q <= k)%Z.
Proof.
  intros Hk. rewrite <- (Qfloor_Z k). by apply Qfloor_resp_le.
Qed.

Lemma rint_lower k q : inject_Z k <= q -> (k <= rint q)%Z.
Proof.
  intros Hk. apply Qfloor_lower in Hk. unfold rint.
  destruct (Qcompare _ _); [destruct (Z.even _)|..]; lia.
Qed.

Lemma rint_upper k q : q <= inject_Z k -> (rint q <= k)%Z.
Proof.
  intros Hk. pose proof (Qfloor_upper _ _ Hk) as Hf.
  pose proof (Qfloor_le q) as Hq. unfold rint.
  destruct (Z.eq_dec (Qfloor q) k) as [->|Hne].
  - assert (Qcompare (q - inject_Z k) (1 # 2) = Lt) as ->
      by (apply (proj1 (Qlt_alt _ _)); lra).
    lia.
  - destruct (Qcompare _ _); [destruct (Z.even _)|..]; lia.
Qed.

Lemma rint_proper x y : x == y -> rint x = rint y.
Proof.
  intros Hxy. unfold rint. rewrite (Qfloor_comp _ _ Hxy).
  assert (x - inject_Z (Qfloor y) == y - inject_Z (Qfloor y)) as -> by lra.
  reflexivity.
Qed.

Lemma round1_proper x y : x == y -> round1 x = round1 y.
Proof.
  intros Hxy. unfold round1. apply Qred_complete.
  rewrite (rint_proper (x * 10) (y * 10)); [reflexivity|lra].
Qed.

(** Rounding to one decimal keeps a value between two bounds that are
    themselves multiples of one tenth. *)
Lemma round1_bounds a b lo hi q :
  lo == inject_Z a / 10 -> hi == inject_Z b / 10 ->
  lo <= q <= hi -> lo <= round1 q <= hi.
Proof.
  intros Hlo Hhi [Ha Hb]. unfold round1. rewrite Qred_correct.
  tenths.
  assert (a <= rint (q * 10))%Z as Hl by (apply rint_lower; lra).
  assert (rint (q * 10) <= b)%Z as Hu by (apply rint_upper; lra).
  rewrite Zle_Qle in Hl, Hu. lra.
Qed.

(** Truncation of a non-negative value is its floor. *)
Lemma astype_int_nonneg q : 0 <= q -> astype_int q = Qfloor q.
Proof.
  destruct q as [n d]. unfold Qle, astype_int, Qfloor. cbn. intros Hn.
  apply Z.quot_div_nonneg; lia.
Qed.

Lemma astype_int_bounds a b q :
  (0 <= a)%Z -> inject_Z a <= q <= inject_Z b -> (a <= astype_int q <= b)%Z.
Proof.
  intros H0 [Ha Hb].
  assert (0 <= q) as Hq.
  { apply Qle_trans with (inject_Z a); [|exact Ha].
    change 0 with (inject_Z 0). by rewrite <- Zle_Qle. }
  rewrite astype_int_nonneg by exact Hq.
  split; [by apply Qfloor_lower|by apply Qfloor_upper].
Qed.

Lemma rint_floor_le q : (Qfloor q <= rint q <= Qfloor q + 1)%Z.
Proof.
  unfold rint. destruct (Qcompare _ _); [destruct (Z.even _)|..]; lia.
Qed.

Lemma rint_mono x y : x <= y -> (rint x <= rint y)%Z.
Proof.
  intros Hxy. pose proof (Qfloor_resp_le _ _ Hxy) as Hf.
  pose proof (rint_floor_le x) as Hx. pose proof (rint_floor_le y) as Hy.
  destruct (Z.eq_dec (Qfloor x) (Qfloor y)) as [Heq|Hne]; [|lia].
  unfold rint. rewrite <- Heq.
  destruct (Qcompare_spec (x - inject_Z (Qfloor x)) (1 # 2)) as [Ex|Ex|Ex];
    destruct (Qcompare_spec (y - inject_Z (Qfloor x)) (1 # 2)) as [Ey|Ey|Ey];
    try destruct (Z.even _); try lia; lra.
Qed.

Lemma round1_mono x y : x <= y -> round1 x <= round1 y.
Proof.
  intros Hxy. unfold round1. rewrite !Qred_correct.
  assert (rint (x * 10) <= rint (y * 10))%Z as Hr by (apply rint_mono; lra).
  rewrite Zle_Qle in Hr. tenths. lra.
Qed.


Lemma round1_tenths q : round1 q == inject_Z (rint (q * 10)) / 10.
Proof. unfold round1. apply Qred_correct. Qed.


(** ** The health score *)

Lemma iloc_last_Some data latest :
  last (rows data) = Some latest -> iloc_last data = Ok latest.
Proof. unfold iloc_last. by intros ->. Qed.

(** The generator expression of line 190, summed from [0]. *)
Lemma weighted_sum_unfold latest :
  py_sum (map (fun ws => fst ws * snd ws) (zip weights (scores latest)))
  = 0 + 0.2 * hr_score latest + 0.2 * oxygen_score latest
      + 0.15 * activity_score latest + 0.2 * sleep_score latest
      + 0.15 * stress_score latest + 0.1 * temp_score latest.
Proof. reflexivity. Qed.

Lemma int64_wrap_id z :
  (- 9223372036854775808 <= z < 9223372036854775808)%Z -> int64_wrap z = z.
Proof.
  intros Hz. unfold int64_wrap. rewrite Z.mod_small by lia. lia.
Qed.

(** A heart rate within [2 ^ 62] of 70 does not wrap at line 179. *)
Lemma hr_score_no_wrap s :
  (Z.abs (heart_rate s - 70) < 4611686018427387904)%Z ->
  hr_score s = py_max 0 (inject_Z (100 - Z.abs (heart_rate s - 70) * 2)).
Proof.
  intros Hhr. unfold hr_score. cbv zeta.
  rewrite (int64_wrap_id (heart_rate s - 70)) by lia.
  rewrite (int64_wrap_id (Z.abs _)) by lia.
  rewrite (int64_wrap_id (_ * 2)) by lia.
  rewrite (int64_wrap_id (100 - _)) by lia.
  reflexivity.
Qed.

Lemma hr_score_bounds s :
  (Z.abs (heart_rate s - 70) < 4611686018427387904)%Z ->
  0 <= hr_score s <= 100.
Proof.
  intros Hhr. rewrite (hr_score_no_wrap s Hhr).
  assert (100 - Z.abs (heart_rate s - 70) * 2 <= 100)%Z as Hle by lia.
  rewrite Zle_Qle in Hle. change (inject_Z 100) with 100 in Hle.
  destruct (py_max_spec 0 (inject_Z (100 - Z.abs (heart_rate s - 70) * 2)))
    as [[? ->]|[? ->]]; lra.
Qed.


Lemma temp_score_bounds s : 0 <= temp_score s <= 100.
Proof.
  unfold temp_score.
  pose proof (Qabs_nonneg (body_temperature s - 98.6)).
  destruct (py_max_spec 0 (100 - Qabs (body_temperature s - 98.6) * 10))
    as [[? ->]|[? ->]]; lra.
Qed.

Lemma oxygen_score_bounds s :
  0 <= blood_oxygen s -> 0 <= oxygen_score s <= 100.
Proof.
  intros Hb. unfold oxygen_score.
  destruct (py_min_spec 100 (blood_oxygen s * 1.02)) as [[? ->]|[? ->]]; lra.
Qed.

Lemma activity_score_bounds s :
  (0 <= steps s)%Z -> 0 <= activity_score s <= 100.
Proof.
  intros Hs. rewrite Zle_Qle in Hs. change (inject_Z 0) with 0 in Hs.
  unfold activity_score.
  destruct (py_min_spec 100 (inject_Z (steps s) / 10)) as [[? ->]|[? ->]];
    tenths; lra.
Qed.




(** Sub-scores of a sample with the scenario's field values. *)
Lemma scenario_sub_scores s :
  scenario_fields s ->
  hr_score s == 100 /\ oxygen_score s == 99.96 /\ activity_score s == 100 /\
  sleep_score s == 80 /\ stress_score s == 70 /\ temp_score s == 100.
Proof.
  intros (Hhr & Hox & Hst & Hsl & Hsr & Hbt).
  unfold hr_score, oxygen_score, activity_score, sleep_score, stress_score,
    temp_score.
  rewrite Hhr, Hst.
  assert (Qabs (body_temperature s - 98.6) == 0) as Habs.
  { assert (body_temperature s - 98.6 == 0) as -> by lra. reflexivity. }
  split_and!.
  - reflexivity.
  - destruct (py_min_spec 100 (blood_oxygen s * 1.02)) as [[? ->]|[? ->]]; lra.
  - reflexivity.
  - lra.
  - lra.
  - destruct (py_max_spec 0 (100 - Qabs (body_temperature s - 98.6) * 10))
      as [[? ->]|[? ->]]; lra.
Qed.

(** C4, as the code has it. For every dataset whose latest sample has
    the scenario's field values, the sub-scores are 100 (heart rate),
    99.96 (oxygen), 100 (activity), 80 (sleep), 70 (stress) and 100
    (temperature); the score is 91.5, in the tier [main] labels
    Excellent. *)
Theorem scenario_score data latest :
  last (rows data) = Some latest ->
  scenario_fields latest ->
  (hr_score latest == 100 /\ oxygen_score latest == 99.96 /\
   activity_score latest == 100 /\ sleep_score latest == 80 /\
   stress_score latest == 70 /\ temp_score latest == 100) /\
  calculate_health_score data = Ok (183 # 2) /\
  183 # 2 == 91.5 /\
  status_of (183 # 2) = "Excellent"%string.
Proof.
  intros Hlast Hs. pose proof (scenario_sub_scores _ Hs) as Hsub.
  split; [exact Hsub|]. split; [|split; reflexivity].
  destruct Hsub as (Hhr & Hox & Hac & Hsl & Hsr & Hbt).
  unfold calculate_health_score. rewrite (iloc_last_Some _ _ Hlast). cbv zeta.
  rewrite weighted_sum_unfold. f_equal.
  rewrite (round1_proper _ 91.492) by lra. reflexivity.
Qed.

Lemma scenario_score_witness :
  (hr_score scenario == 100 /\ oxygen_score scenario == 99.96 /\
   activity_score scenario == 100 /\ sleep_score scenario == 80 /\
   stress_score scenario == 70 /\ temp_score scenario == 100) /\
  calculate_health_score scenario_frame = Ok (183 # 2) /\
  183 # 2 == 91.5 /\
  status_of (183 # 2) = "Excellent"%string.
Proof.
  apply (scenario_score scenario_frame scenario).
  - reflexivity.
  - unfold scenario_fields. cbn. repeat split; reflexivity.
Defined.

(** C4, as stated, fails on the scenario itself: the sleep and stress
    sub-scores are 80 and 70, not about 100, and the score is 91.5,
    below 98. *)
Lemma scenario_score_counterexample :
  calculate_health_score scenario_frame = Ok (183 # 2) /\
  sleep_score scenario == 80 /\
  stress_score scenario == 70 /\
  ~ 98 <= 183 # 2.
Proof.
  split; [reflexivity|]. split; [reflexivity|]. split; [reflexivity|].
  unfold Qle; cbn; lia.
Qed.

(** C8, as the code has it. The score is a function of the latest
    sample alone: two datasets with the same latest sample get the same
    score, whatever their other rows and column means. *)
Theorem score_depends_on_latest_only data1 data2 :
  last (rows data1) = last (rows data2) ->
  calculate_health_score data1 = calculate_health_score data2.
Proof.
  intros Hlast. unfold calculate_health_score, iloc_last. by rewrite Hlast.
Qed.

Lemma score_depends_on_latest_only_witness :
  calculate_health_score idle_history = calculate_health_score busy_history.
Proof.
  apply (score_depends_on_latest_only idle_history busy_history).
  reflexivity.
Defined.

(** C8, as stated, fails: [idle_history] and [busy_history] end in the
    same sample and have step means 550 and 5500, yet the same activity
    sub-score and the same score; and no pair of datasets with equal
    latest samples has different scores. *)
Lemma score_population_relative_counterexample :
  (last (rows idle_history) = Some scenario /\
   last (rows busy_history) = Some scenario /\
   mean_steps idle_history == 550 /\
   mean_steps busy_history == 5500 /\
   calculate_health_score idle_history = calculate_health_score busy_history) /\
  ~ (exists data1 data2,
        last (rows data1) = last (rows data2) /\
        ~ mean_steps data1 == mean_steps data2 /\
        calculate_health_score data1 <> calculate_health_score data2).
Proof.
  split.
  - repeat split; reflexivity.
  - intros (data1 & data2 & Hlast & _ & Hne). apply Hne.
    unfold calculate_health_score, iloc_last. by rewrite Hlast.
Qed.

(** ** Insights *)

(** C7. On a non-empty dataset the insights are the concatenation, in
    the order heart rate, oxygen, activity, sleep, stress, of one list
    per category; each list holds at most one string, one of the
    category's two messages; the oxygen list always holds exactly one,
    the low-oxygen warning exactly when the latest blood oxygen is below
    95 and the confirmation otherwise. *)
Theorem insights_one_per_category data latest :
  last (rows data) = Some latest ->
  exists hr ox act sl st,
    generate_health_insights data = Ok (hr ++ ox ++ act ++ sl ++ st) /\
    (hr = [] \/ hr = [MSG_HR_ELEVATED] \/ hr = [MSG_HR_GREAT]) /\
    (blood_oxygen latest < 95 /\ ox = [MSG_OXYGEN_LOW] \/
     ~ blood_oxygen latest < 95 /\ ox = [MSG_OXYGEN_OK]) /\
    (act = [] \/ act = [MSG_LESS_ACTIVE] \/ act = [MSG_ACTIVE]) /\
    (sl = [] \/ sl = [MSG_SLEEP_POOR] \/ sl = [MSG_SLEEP_GOOD]) /\
    (st = [] \/ st = [MSG_STRESS_HIGH] \/ st = [MSG_STRESS_LOW]).
Proof.
  intros Hlast.
  exists (heart_rate_rule data latest), (oxygen_rule latest),
    (activity_rule data latest), (sleep_rule latest), (stress_rule latest).
  split_and!.
  - unfold generate_health_insights. rewrite (iloc_last_Some _ _ Hlast).
    cbv zeta. by rewrite app_nil_l, <- !app_assoc.
  - unfold heart_rate_rule. cbv zeta. repeat destruct (Qlt_le_dec _ _); auto.
  - unfold oxygen_rule. destruct (Qlt_le_dec _ _) as [Hlt|Hge]; [by left|].
    right. split; [|done]. by apply Qle_not_lt.
  - unfold activity_rule. cbv zeta. repeat destruct (Qlt_le_dec _ _); auto.
  - unfold sleep_rule. repeat destruct (Qlt_le_dec _ _); auto.
  - unfold stress_rule. repeat destruct (Qlt_le_dec _ _); auto.
Qed.

Lemma insights_one_per_category_witness :
  exists hr ox act sl st,
    generate_health_insights scenario_frame = Ok (hr ++ ox ++ act ++ sl ++ st) /\
    (hr = [] \/ hr = [MSG_HR_ELEVATED] \/ hr = [MSG_HR_GREAT]) /\
    (blood_oxygen scenario < 95 /\ ox = [MSG_OXYGEN_LOW] \/
     ~ blood_oxygen scenario < 95 /\ ox = [MSG_OXYGEN_OK]) /\
    (act = [] \/ act = [MSG_LESS_ACTIVE] \/ act = [MSG_ACTIVE]) /\
    (sl = [] \/ sl = [MSG_SLEEP_POOR] \/ sl = [MSG_SLEEP_GOOD]) /\
    (st = [] \/ st = [MSG_STRESS_HIGH] \/ st = [MSG_STRESS_LOW]).
Proof.
  apply (insights_one_per_category scenario_frame scenario).
  reflexivity.
Defined.

(** C10. On a dataset with no rows both [calculate_health_score] and
    [generate_health_insights] raise [IndexError] at [data.iloc[-1]],
    whether or not the anomaly column is present; on a dataset with at
    least one row both return a value. *)
Theorem empty_frame_raises_nonempty_returns :
  (forall flags,
      calculate_health_score {| rows := []; anomaly := flags |} = Err IndexError /\
      generate_health_insights {| rows := []; anomaly := flags |} = Err IndexError) /\
  (forall earlier latest flags,
      exists v l,
        calculate_health_score {| rows := earlier ++ [latest]; anomaly := flags |} = Ok v /\
        generate_health_insights {| rows := earlier ++ [latest]; anomaly := flags |} = Ok l).
Proof.
  split.
  - intros flags. split; reflexivity.
  - intros earlier latest flags.
    unfold calculate_health_score, generate_health_insights, iloc_last. cbn [rows].
    rewrite last_snoc. eauto.
Qed.

(** ** Arrays *)

Lemma length_put_at arr idx vals : length (put_at arr idx vals) = length arr.
Proof.
  revert arr vals. induction idx as [|i idx IH]; intros arr [|v vals]; cbn; auto.
  by rewrite IH, length_insert.
Qed.

Lemma put_at_lookup_notin arr idx vals (i : nat) :
  i ∉ idx -> put_at arr idx vals !! i = arr !! i.
Proof.
  revert arr vals. induction idx as [|j idx IH]; intros arr [|v vals] Hi; cbn; auto.
  apply not_elem_of_cons in Hi as [Hne Hi].
  rewrite IH by done. by apply list_lookup_insert_ne.
Qed.

Lemma put_at_lookup_in arr idx vals (k i : nat) v :
  NoDup idx -> idx !! k = Some i -> vals !! k = Some v ->
  (i < length arr)%nat ->
  put_at arr idx vals !! i = Some v.
Proof.
  revert arr vals k.
  induction idx as [|j idx IH]; intros arr vals k Hnd Hk Hv Hlt; [done|].
  apply NoDup_cons in Hnd as [Hj Hnd].
  destruct vals as [|w vals]; [by destruct k|].
  destruct k as [|k]; cbn in *.
  - simplify_eq. rewrite put_at_lookup_notin by done.
    by apply list_lookup_insert_eq.
  - apply (IH _ _ k); auto. by rewrite length_insert.
Qed.

Lemma take_at_Some arr idx :
  Forall (fun i => (i < length arr)%nat) idx ->
  exists cur, take_at arr idx = Some cur /\
              length cur = length idx /\
              forall k i, idx !! k = Some i -> cur !! k = arr !! i.
Proof.
  intros Hidx.
  destruct (mapM_is_Some_2 (fun i => arr !! i) idx) as [cur Hcur].
  { eapply Forall_impl; [exact Hidx|]. intros i Hi. by apply lookup_lt_is_Some_2. }
  exists cur. split; [exact Hcur|].
  apply mapM_Some_1 in Hcur. split.
  - symmetry. by eapply Forall2_length.
  - intros k i Hk.
    destruct (Forall2_lookup_l _ _ _ _ _ Hcur Hk) as (x & Hx & Hax).
    by rewrite Hx, Hax.
Qed.

(** [arr[idx] op= delta] with distinct in-range indices: every selected
    element is combined with its own delta, every other element stays. *)
Lemma update_at_spec op arr idx delta :
  NoDup idx ->
  Forall (fun i => (i < length arr)%nat) idx ->
  length delta = length idx ->
  exists arr',
    update_at op arr idx delta = Ok arr' /\
    length arr' = length arr /\
    (forall i : nat, i ∉ idx -> arr' !! i = arr !! i) /\
    (forall k i d, idx !! k = Some i -> delta !! k = Some d ->
                   exists x, arr !! i = Some x /\ arr' !! i = Some (op x d)).
Proof.
  intros Hnd Hidx Hlen.
  destruct (take_at_Some arr idx Hidx) as (cur & Hcur & Hclen & Hclook).
  unfold update_at. rewrite Hcur. rewrite decide_True by done.
  eexists. split; [reflexivity|]. split_and!.
  - apply length_put_at.
  - intros i Hi. by apply put_at_lookup_notin.
  - intros k i d Hk Hd.
    destruct (lookup_lt_is_Some_2 arr i) as [x Hx].
    { eapply Forall_lookup_1 in Hidx; [exact Hidx|exact Hk]. }
    exists x. split; [done|].
    apply (put_at_lookup_in _ _ _ k); auto.
    + rewrite lookup_zip_with, (Hclook _ _ Hk), Hx, Hd. done.
    + by apply lookup_lt_Some in Hx.
Qed.

Lemma np_clip_length arr lo hi : length (np_clip arr lo hi) = length arr.
Proof. apply length_map. Qed.

Lemma np_clip_bounds arr lo hi :
  lo <= hi -> Forall (fun x => lo <= x <= hi) (np_clip arr lo hi).
Proof.
  intros Hle. apply Forall_fmap, Forall_true. intros x. cbn.
  destruct (Q.min_spec (Qmax x lo) hi) as [[? ->]|[? ->]];
    destruct (Q.max_spec x lo) as [[? Hm]|[? Hm]]; rewrite ?Hm in *; lra.
Qed.

Lemma np_maximum_bounds lo arr : Forall (fun x => lo <= x) (np_maximum lo arr).
Proof.
  apply Forall_fmap, Forall_true. intros x. cbn.
  destruct (Q.max_spec lo x) as [[? ->]|[? ->]]; lra.
Qed.

Lemma outlier_count_floor n : outlier_count n = (n / 20)%nat.
Proof.
  unfold outlier_count, astype_int.
  change (Qnum (0.05 * inject_Z (Z.of_nat n))) with (5 * Z.of_nat n)%Z.
  change (Z.pos (Qden (0.05 * inject_Z (Z.of_nat n)))) with (5 * 20)%Z.
  rewrite Z.quot_div_nonneg by lia.
  rewrite Z.div_mul_cancel_l by lia.
  change 20%Z with (Z.of_nat 20). rewrite <- Nat2Z.inj_div. apply Nat2Z.id.
Qed.

Lemma outlier_count_le n : (outlier_count n <= n)%nat.
Proof.
  rewrite outlier_count_floor. apply Nat.Div0.div_le_upper_bound. lia.
Qed.

(** ** Timestamps *)

Lemma length_np_linspace_int64 stop num :
  length (np_linspace_int64 stop num) = num.
Proof. unfold np_linspace_int64. by rewrite length_map, length_seq. Qed.

Lemma pd_date_range_Ok start_date end_date periods :
  Timestamp_ok start_date = true -> Timestamp_ok end_date = true ->
  (0 <= periods)%Z ->
  exists timestamps,
    pd_date_range start_date end_date periods = Ok timestamps /\
    length timestamps = Z.to_nat periods.
Proof.
  intros Hs He Hp. unfold pd_date_range. rewrite Hs, He. cbn [andb].
  rewrite decide_False by lia.
  eexists. split; [reflexivity|].
  by rewrite length_map, length_np_linspace_int64.
Qed.

Lemma pd_date_range_Ok_inv start_date end_date periods timestamps :
  pd_date_range start_date end_date periods = Ok timestamps ->
  Timestamp_ok start_date = true /\ Timestamp_ok end_date = true /\
  (0 <= periods)%Z /\
  timestamps = map (fun off => (off + start_date)%Z)
                   (np_linspace_int64 (end_date - start_date) (Z.to_nat periods)).
Proof.
  unfold pd_date_range. intros Hts.
  destruct (Timestamp_ok start_date); [|done].
  destruct (Timestamp_ok end_date); [|done]. cbn [andb] in Hts.
  destruct (decide (periods < 0)%Z); [done|].
  injection Hts as <-. split_and!; auto. lia.
Qed.

Lemma pd_date_range_negative start_date end_date periods :
  (periods < 0)%Z -> pd_date_range start_date end_date periods = Err ValueError.
Proof.
  intros Hp. unfold pd_date_range.
  destruct (_ && _); [by rewrite decide_True|done].
Qed.


(** Line 74 *)

Lemma minus_days_Ok end_date days start_date :
  minus_days end_date days = Ok start_date ->
  timedelta_ok days = true /\
  datetime_ok (end_date - days * ns_per_day) = true /\
  start_date = (end_date - days * ns_per_day)%Z.
Proof.
  unfold minus_days. intros Hm.
  destruct (timedelta_ok days); [|done]. cbv zeta in Hm.
  destruct (datetime_ok _); [|done]. by injection Hm as <-.
Qed.


Lemma minus_days_in_range end_date days :
  timedelta_ok days && datetime_ok (end_date - days * ns_per_day) = true ->
  minus_days end_date days = Ok (end_date - days * ns_per_day)%Z.
Proof.
  unfold minus_days. intros Hm. apply andb_prop in Hm as [-> Hdt].
  cbv zeta. by rewrite Hdt.
Qed.

Lemma window_representable_spec now days :
  window_representable now days = true ->
  minus_days now days = Ok (now - days * ns_per_day)%Z /\
  Timestamp_ok (now - days * ns_per_day) = true /\
  Timestamp_ok now = true.
Proof.
  unfold window_representable. intros Hw.
  apply andb_prop in Hw as [Hw Hnow]. apply andb_prop in Hw as [Hw Hstart].
  split_and!; auto. by apply minus_days_in_range.
Qed.

(** ** The generator *)

Section GeneratorProperties.
Context `{NumpyRandom} `{NumpyMath}.

(** Name the next draw of [np.random.normal] and record its length. *)
Ltac draw_normal :=
  match goal with
  | |- context [np_random_normal ?loc ?scale ?n ?g] =>
      let L := fresh "L" in
      let z := fresh "z" in
      let g' := fresh "g" in
      pose proof (np_random_normal_length loc scale n g) as L;
      destruct (np_random_normal loc scale n g) as [z g']; cbn [fst] in L
  end.

Lemma clipped_signals_spec hours g :
  signals_length (clipped_signals hours g).1 (length hours) /\
  signals_clipped (clipped_signals hours g).1.
Proof.
  unfold clipped_signals, circadian. repeat draw_normal. cbn [fst]. split.
  - unfold signals_length, np_maximum. cbn.
    split_and!;
      repeat first [rewrite np_clip_length | rewrite length_map
                   | rewrite length_zip_with_l_eq];
      congruence.
  - unfold signals_clipped. cbn. split_and!;
      first [apply np_clip_bounds; lra | apply np_maximum_bounds].
Qed.

Lemma draw_outliers_spec n g : outliers_drawn (draw_outliers n g).1 n.
Proof.
  unfold draw_outliers.
  destruct (np_random_choice_spec n (outlier_count n) g (outlier_count_le n))
    as (Hlen & Hnd & Hlt).
  destruct (np_random_choice n (outlier_count n) g) as [idx g1]. cbn [fst] in *.
  destruct (np_random_choice_from_spec [-20; 30]%Z (length idx) g1 ltac:(done))
    as (Hslen & Hsin).
  destruct (np_random_choice_from [-20; 30]%Z (length idx) g1) as [shift g2].
  cbn [fst] in *.
  destruct (np_random_randint_spec 5 15 (length idx) g2 ltac:(lia))
    as (Hdlen & Hdin).
  destruct (np_random_randint 5 15 (length idx) g2) as [drop g3].
  cbn [fst] in *. unfold outliers_drawn. cbn. split_and!; auto.
  - eapply Forall_impl; [exact Hsin|]. intros v Hv. cbn in Hv.
    rewrite !elem_of_cons, elem_of_nil in Hv. tauto.
  - eapply Forall_impl; [exact Hdin|]. intros d Hd. cbn in Hd. lia.
Qed.

(** The injection step: defined on what was drawn, it leaves the
    lengths and four of the arrays alone; an unselected index keeps
    its heart rate and blood oxygen; a selected index gets its own
    shift added and its own drop subtracted. *)
Lemma inject_outliers_spec s o n :
  signals_length s n -> outliers_drawn o n ->
  exists s',
    inject_outliers s o = Ok s' /\
    signals_length s' n /\
    sig_steps s' = sig_steps s /\
    sig_sleep_quality s' = sig_sleep_quality s /\
    sig_stress_level s' = sig_stress_level s /\
    sig_body_temp s' = sig_body_temp s /\
    (forall i : nat, i ∉ anomaly_indices o ->
       sig_heart_rate s' !! i = sig_heart_rate s !! i /\
       sig_blood_oxygen s' !! i = sig_blood_oxygen s !! i) /\
    (forall k (i : nat), anomaly_indices o !! k = Some i ->
       exists hr ox shift drop,
         sig_heart_rate s !! i = Some hr /\
         sig_blood_oxygen s !! i = Some ox /\
         heart_rate_shift o !! k = Some shift /\
         blood_oxygen_drop o !! k = Some drop /\
         sig_heart_rate s' !! i = Some (hr + inject_Z shift) /\
         sig_blood_oxygen s' !! i = Some (ox - inject_Z drop)).
Proof.
  intros (Lhr & Lox & Lst & Lsl & Lsr & Lbt)
         (Hlen & Hnd & Hlt & Hslen & Hsin & Hdlen & Hdin).
  destruct (update_at_spec Qplus (sig_heart_rate s) (anomaly_indices o)
              (map inject_Z (heart_rate_shift o)))
    as (hr' & Ehr & Lhr' & Hhr_out & Hhr_in);
    [done|by rewrite Lhr|by rewrite length_map|].
  destruct (update_at_spec Qminus (sig_blood_oxygen s) (anomaly_indices o)
              (map inject_Z (blood_oxygen_drop o)))
    as (ox' & Eox & Lox' & Hox_out & Hox_in);
    [done|by rewrite Lox|by rewrite length_map|].
  unfold inject_outliers, iadd_at, isub_at. rewrite Ehr, Eox.
  eexists. split; [reflexivity|]. cbn. split_and!; auto.
  - unfold signals_length. cbn. split_and!; congruence.
  - intros k i Hk.
    destruct (lookup_lt_is_Some_2 (heart_rate_shift o) k) as [shift Hshift].
    { rewrite Hslen. by eapply lookup_lt_Some. }
    destruct (lookup_lt_is_Some_2 (blood_oxygen_drop o) k) as [drop Hdrop].
    { rewrite Hdlen. by eapply lookup_lt_Some. }
    destruct (Hhr_in k i (inject_Z shift) Hk) as (hr & Hhr & Hhr').
    { by rewrite list_lookup_fmap, Hshift. }
    destruct (Hox_in k i (inject_Z drop) Hk) as (ox & Hox & Hox').
    { by rewrite list_lookup_fmap, Hdrop. }
    exists hr, ox, shift, drop. auto 10.
Qed.

Lemma frame_row_is_Some timestamps s (i : nat) :
  signals_length s (length timestamps) -> (i < length timestamps)%nat ->
  is_Some (frame_row timestamps s i).
Proof.
  intros (Lhr & Lox & Lst & Lsl & Lsr & Lbt) Hi. unfold frame_row.
  destruct (lookup_lt_is_Some_2 timestamps i Hi) as [? ->].
  destruct (lookup_lt_is_Some_2 (sig_heart_rate s) i) as [? ->]; [lia|].
  destruct (lookup_lt_is_Some_2 (sig_blood_oxygen s) i) as [? ->]; [lia|].
  destruct (lookup_lt_is_Some_2 (sig_steps s) i) as [? ->]; [lia|].
  destruct (lookup_lt_is_Some_2 (sig_sleep_quality s) i) as [? ->]; [lia|].
  destruct (lookup_lt_is_Some_2 (sig_stress_level s) i) as [? ->]; [lia|].
  destruct (lookup_lt_is_Some_2 (sig_body_temp s) i) as [? ->]; [lia|].
  cbn. eauto.
Qed.

Lemma frame_row_Some timestamps s (i : nat) r :
  frame_row timestamps s i = Some r ->
  exists t hr ox st sl sr bt,
    timestamps !! i = Some t /\
    sig_heart_rate s !! i = Some hr /\ sig_blood_oxygen s !! i = Some ox /\
    sig_steps s !! i = Some st /\ sig_sleep_quality s !! i = Some sl /\
    sig_stress_level s !! i = Some sr /\ sig_body_temp s !! i = Some bt /\
    r = {| timestamp := t; heart_rate := astype_int hr;
           blood_oxygen := round1 ox; steps := astype_int st;
           sleep_quality := round1 sl; stress_level := round1 sr;
           body_temperature := round1 bt |}.
Proof.
  unfold frame_row. intros Hr.
  destruct (timestamps !! i) as [t|]; [|done].
  destruct (sig_heart_rate s !! i) as [hr|]; [|done].
  destruct (sig_blood_oxygen s !! i) as [ox|]; [|done].
  destruct (sig_steps s !! i) as [st|]; [|done].
  destruct (sig_sleep_quality s !! i) as [sl|]; [|done].
  destruct (sig_stress_level s !! i) as [sr|]; [|done].
  destruct (sig_body_temp s !! i) as [bt|]; [|done].
  cbn in Hr. injection Hr as <-.
  exists t, hr, ox, st, sl, sr, bt. auto 10.
Qed.

Lemma pd_DataFrame_spec timestamps s :
  signals_length s (length timestamps) ->
  exists df,
    pd_DataFrame timestamps s = Ok df /\
    anomaly df = None /\
    length (rows df) = length timestamps /\
    forall i : nat, rows df !! i = frame_row timestamps s i.
Proof.
  intros Hlen. unfold pd_DataFrame.
  destruct (mapM_is_Some_2 (frame_row timestamps s) (seq 0 (length timestamps)))
    as [rs Hrs].
  { apply Forall_seq. intros i Hi. apply frame_row_is_Some; [done|lia]. }
  rewrite Hrs. rewrite decide_True.
  2:{ destruct Hlen as (? & ? & ? & ? & ? & ?). repeat constructor; done. }
  eexists. split; [reflexivity|]. cbn.
  apply mapM_Some_1 in Hrs.
  assert (length rs = length timestamps) as Hrlen.
  { apply Forall2_length in Hrs. by rewrite length_seq in Hrs. }
  split_and!; auto.
  intros i. destruct (decide (i < length timestamps)%nat) as [Hi|Hi].
  - destruct (Forall2_lookup_l _ _ _ i i Hrs) as (r & Hr & Hrow).
    { by apply lookup_seq_lt. }
    by rewrite Hr, Hrow.
  - rewrite (lookup_ge_None_2 rs) by lia.
    unfold frame_row. by rewrite (lookup_ge_None_2 timestamps) by lia.
Qed.

(** The anatomy of a call whose sample count is not negative: the
    trace exists, its draws meet the contracts, the injection and the
    frame construction succeed, and row [i] of the result is
    [frame_row] of the injected signals. *)
Lemma generate_sample_data_anatomy now days samples_per_day g :
  window_representable now days = true ->
  (0 <= days * samples_per_day)%Z ->
  exists tr s' df,
    generate_trace now days samples_per_day = Ok tr /\
    length (tr_timestamps tr) = Z.to_nat (days * samples_per_day) /\
    signals_length (tr_signals tr) (length (tr_timestamps tr)) /\
    signals_clipped (tr_signals tr) /\
    outliers_drawn (tr_outliers tr) (length (tr_timestamps tr)) /\
    inject_outliers (tr_signals tr) (tr_outliers tr) = Ok s' /\
    signals_length s' (length (tr_timestamps tr)) /\
    (generate_sample_data now days samples_per_day g).1 = Ok df /\
    anomaly df = None /\
    length (rows df) = length (tr_timestamps tr) /\
    forall i : nat, rows df !! i = frame_row (tr_timestamps tr) s' i.
Proof.
  intros Hw Hn. unfold generate_trace, generate_sample_data.
  apply window_representable_spec in Hw as (-> & Hstart & Hnow).
  destruct (pd_date_range_Ok (now - days * ns_per_day) now _ Hstart Hnow Hn)
    as (timestamps & -> & Hlen).
  unfold seeded_draws.
  pose proof (clipped_signals_spec (map hour timestamps) (np_random_seed 42))
    as [Hslen Hsclip].
  destruct (clipped_signals (map hour timestamps) (np_random_seed 42))
    as [s g1]. cbn [fst] in *.
  pose proof (draw_outliers_spec (length (map hour timestamps)) g1) as Ho.
  destruct (draw_outliers (length (map hour timestamps)) g1) as [o g2].
  cbn [fst] in *. rewrite length_map in *.
  destruct (inject_outliers_spec s o _ Hslen Ho) as (s' & Es' & Hs'len & _).
  destruct (pd_DataFrame_spec timestamps s' Hs'len)
    as (df & Edf & Hanom & Hrlen & Hrows).
  exists {| tr_timestamps := timestamps; tr_signals := s; tr_outliers := o |},
    s', df.
  cbn. rewrite Es'. split_and!; auto.
Qed.

Lemma window_representable_intro now days start_date :
  minus_days now days = Ok start_date ->
  Timestamp_ok start_date = true -> Timestamp_ok now = true ->
  window_representable now days = true.
Proof.
  intros Hm Hs He. apply minus_days_Ok in Hm as (Htd & Hdt & ->).
  unfold window_representable. by rewrite Htd, Hdt, Hs, He.
Qed.

Lemma generate_trace_Ok_window now days samples_per_day tr :
  generate_trace now days samples_per_day = Ok tr ->
  window_representable now days = true /\ (0 <= days * samples_per_day)%Z.
Proof.
  unfold generate_trace. intros Htr.
  destruct (minus_days now days) as [start_date|e] eqn:Em; [|done].
  destruct (pd_date_range _ _ _) as [timestamps|e] eqn:Ep; [|done].
  apply pd_date_range_Ok_inv in Ep as (Hs & He & Hp & _).
  split; [by eapply window_representable_intro|done].
Qed.

Lemma generate_sample_data_Ok_window now days samples_per_day g df :
  (generate_sample_data now days samples_per_day g).1 = Ok df ->
  window_representable now days = true /\ (0 <= days * samples_per_day)%Z.
Proof.
  unfold generate_sample_data. intros Hdf.
  destruct (minus_days now days) as [start_date|e] eqn:Em; [|done].
  destruct (pd_date_range _ _ _) as [timestamps|e] eqn:Ep; [|done].
  apply pd_date_range_Ok_inv in Ep as (Hs & He & Hp & _).
  split; [by eapply window_representable_intro|done].
Qed.

Lemma generate_negative_count now days samples_per_day g :
  timedelta_ok days && datetime_ok (now - days * ns_per_day) = true ->
  (days * samples_per_day < 0)%Z ->
  generate_sample_data now days samples_per_day g = (Err ValueError, g).
Proof.
  intros Hm Hneg. unfold generate_sample_data.
  by rewrite (minus_days_in_range _ _ Hm), pd_date_range_negative.
Qed.


(** C1, as the code has it. For fixed [days], [samples_per_day] and a
    fixed reading of the clock, the returned dataset is the same
    whatever state the global generator was left in: the call reseeds
    it with the constant 42 before the first draw. *)
Theorem generate_deterministic_at_fixed_clock now days samples_per_day g1 g2 :
  (generate_sample_data now days samples_per_day g1).1 =
  (generate_sample_data now days samples_per_day g2).1.
Proof.
  unfold generate_sample_data.
  destruct (minus_days _ _) as [start_date|e]; [|reflexivity].
  destruct (pd_date_range _ _ _) as [timestamps|e]; [|reflexivity].
  by destruct (seeded_draws _) as [[s o] g].
Qed.


(** C5, as the code has it. The call selects exactly
    [total_samples / 20] (rounded down) distinct indices below
    [total_samples]; the injection step adds -20 or +30 to the heart
    rate of each selected index and subtracts an integer between 5 and
    14 from its blood oxygen; at every other index both arrays are
    unchanged; the returned frame is built from the arrays after that
    step. *)
Theorem outlier_injection_selects_floor_and_shifts now days samples_per_day tr :
  generate_trace now days samples_per_day = Ok tr ->
  length (anomaly_indices (tr_outliers tr))
    = (Z.to_nat (days * samples_per_day) / 20)%nat /\
  NoDup (anomaly_indices (tr_outliers tr)) /\
  Forall (fun i => (i < Z.to_nat (days * samples_per_day))%nat)
         (anomaly_indices (tr_outliers tr)) /\
  exists s',
    inject_outliers (tr_signals tr) (tr_outliers tr) = Ok s' /\
    (forall g, (generate_sample_data now days samples_per_day g).1
               = pd_DataFrame (tr_timestamps tr) s') /\
    (forall i : nat, i ∈ anomaly_indices (tr_outliers tr) ->
       exists hr ox shift drop,
         sig_heart_rate (tr_signals tr) !! i = Some hr /\
         sig_blood_oxygen (tr_signals tr) !! i = Some ox /\
         sig_heart_rate s' !! i = Some (hr + inject_Z shift) /\
         (shift = (-20)%Z \/ shift = 30%Z) /\
         sig_blood_oxygen s' !! i = Some (ox - inject_Z drop) /\
         (5 <= drop <= 14)%Z) /\
    (forall i : nat, i ∉ anomaly_indices (tr_outliers tr) ->
       sig_heart_rate s' !! i = sig_heart_rate (tr_signals tr) !! i /\
       sig_blood_oxygen s' !! i = sig_blood_oxygen (tr_signals tr) !! i).
Proof.
  intros Htr. pose proof (generate_trace_Ok_window _ _ _ _ Htr) as [Hw Hn].
  destruct (generate_sample_data_anatomy now days samples_per_day
              (np_random_seed 42) Hw Hn)
    as (tr' & s' & df & Htr' & Hlen & Hslen & _ & Ho & Es' & _).
  rewrite Htr in Htr'. injection Htr' as <-.
  destruct (inject_outliers_spec _ _ _ Hslen Ho)
    as (s'' & Es'' & _ & _ & _ & _ & _ & Hout & Hin).
  rewrite Es' in Es''. injection Es'' as <-.
  pose proof Ho as (Hcount & Hnd & Hlt & Hslen' & Hsin & Hdlen & Hdin).
  rewrite outlier_count_floor, Hlen in Hcount. rewrite Hlen in Hlt.
  split_and!; auto.
  exists s'. split_and!; auto.
  - intros g. unfold generate_sample_data.
    unfold generate_trace in Htr.
    destruct (minus_days _ _) as [start_date|e]; [|done].
    destruct (pd_date_range _ _ _) as [timestamps|e]; [|done].
    destruct (seeded_draws _) as [[s o] g']. injection Htr as <-.
    cbn in *. by rewrite Es'.
  - intros i Hi. apply list_elem_of_lookup_1 in Hi as [k Hk].
    destruct (Hin k i Hk) as (hr & ox & shift & drop & ? & ? & Hsh & Hdr & ? & ?).
    pose proof (Forall_lookup_1 _ _ _ _ Hsin Hsh) as Hshift.
    pose proof (Forall_lookup_1 _ _ _ _ Hdin Hdr) as Hdrop.
    cbn in Hshift, Hdrop.
    exists hr, ox, shift, drop. split_and!; auto; lia.
Qed.

(** The conversions of lines 113-118 keep clipped values in domain. *)
Lemma clipped_row_in_domain t hr ox st sl sr bt :
  50 <= hr <= 120 -> 85 <= ox <= 100 -> 0 <= st ->
  0 <= sl <= 10 -> 0 <= sr <= 10 -> 96 <= bt <= 102 ->
  in_domain {| timestamp := t; heart_rate := astype_int hr;
               blood_oxygen := round1 ox; steps := astype_int st;
               sleep_quality := round1 sl; stress_level := round1 sr;
               body_temperature := round1 bt |}.
Proof.
  intros Hhr Hox Hst Hsl Hsr Hbt. unfold in_domain.
  cbn [heart_rate blood_oxygen steps sleep_quality stress_level
       body_temperature].
  refine (conj _ (conj _ (conj _ (conj _ (conj _ _))))).
  - by apply (astype_int_bounds 50 120).
  - by apply (round1_bounds 850 1000).
  - rewrite astype_int_nonneg by done. by apply Qfloor_lower.
  - by apply (round1_bounds 0 100).
  - by apply (round1_bounds 0 100).
  - by apply (round1_bounds 960 1020).
Qed.

Lemma shifted_row_in_outlier_range t hr ox st sl sr bt :
  30 <= hr <= 150 -> 71 <= ox <= 95 -> 0 <= st ->
  0 <= sl <= 10 -> 0 <= sr <= 10 -> 96 <= bt <= 102 ->
  in_outlier_range {| timestamp := t; heart_rate := astype_int hr;
                      blood_oxygen := round1 ox; steps := astype_int st;
                      sleep_quality := round1 sl; stress_level := round1 sr;
                      body_temperature := round1 bt |}.
Proof.
  intros Hhr Hox Hst Hsl Hsr Hbt. unfold in_outlier_range.
  cbn [heart_rate blood_oxygen steps sleep_quality stress_level
       body_temperature].
  refine (conj _ (conj _ (conj _ (conj _ (conj _ _))))).
  - by apply (astype_int_bounds 30 150).
  - by apply (round1_bounds 710 950).
  - rewrite astype_int_nonneg by done. by apply Qfloor_lower.
  - by apply (round1_bounds 0 100).
  - by apply (round1_bounds 0 100).
  - by apply (round1_bounds 960 1020).
Qed.

(** C2, as the code has it. In every returned dataset a sample that was
    not selected for injection has all six fields within their domains;
    a selected sample, which is not clipped again, has its heart rate
    between 30 and 150 and its blood oxygen between 71 and 95, and its
    other four fields within their domains. *)
Theorem generated_rows_in_domain_unless_injected now days samples_per_day g df :
  (generate_sample_data now days samples_per_day g).1 = Ok df ->
  exists tr,
    generate_trace now days samples_per_day = Ok tr /\
    forall (i : nat) row, rows df !! i = Some row ->
      (i ∉ anomaly_indices (tr_outliers tr) -> in_domain row) /\
      (i ∈ anomaly_indices (tr_outliers tr) -> in_outlier_range row).
Proof.
  intros Hdf.
  destruct (generate_sample_data_Ok_window _ _ _ _ _ Hdf) as [Hw Hn].
  destruct (generate_sample_data_anatomy now days samples_per_day g Hw Hn)
    as (tr & s' & df' & Htr & Hlen & Hslen & Hclip & Ho & Es' & _ & Hdf' & _ & _
        & Hrows).
  rewrite Hdf in Hdf'. injection Hdf' as <-.
  destruct (inject_outliers_spec _ _ _ Hslen Ho)
    as (s'' & Es'' & _ & Est & Esl & Esr & Ebt & Hout & Hin).
  rewrite Es' in Es''. injection Es'' as <-.
  destruct Hclip as (Chr & Cox & Cst & Csl & Csr & Cbt).
  destruct Ho as (_ & _ & _ & _ & Hsin & _ & Hdin).
  exists tr. split; [exact Htr|]. intros i row Hrow.
  rewrite Hrows in Hrow.
  apply frame_row_Some in Hrow
    as (t & hr & ox & st & sl & sr & bt & _ & Hhr & Hox & Hst & Hsl & Hsr & Hbt & ->).
  rewrite Est in Hst. rewrite Esl in Hsl. rewrite Esr in Hsr. rewrite Ebt in Hbt.
  pose proof (Forall_lookup_1 _ _ _ _ Cst Hst) as Bst.
  pose proof (Forall_lookup_1 _ _ _ _ Csl Hsl) as Bsl.
  pose proof (Forall_lookup_1 _ _ _ _ Csr Hsr) as Bsr.
  pose proof (Forall_lookup_1 _ _ _ _ Cbt Hbt) as Bbt.
  cbn in Bst, Bsl, Bsr, Bbt. split.
  - intros Hi. destruct (Hout i Hi) as [Ehr Eox].
    rewrite Ehr in Hhr. rewrite Eox in Hox.
    pose proof (Forall_lookup_1 _ _ _ _ Chr Hhr) as Bhr.
    pose proof (Forall_lookup_1 _ _ _ _ Cox Hox) as Box.
    by apply clipped_row_in_domain.
  - intros Hi. apply list_elem_of_lookup_1 in Hi as [k Hk].
    destruct (Hin k i Hk)
      as (hr0 & ox0 & shift & drop & Hhr0 & Hox0 & Hsh & Hdr & Hhr' & Hox').
    rewrite Hhr' in Hhr. injection Hhr as <-.
    rewrite Hox' in Hox. injection Hox as <-.
    pose proof (Forall_lookup_1 _ _ _ _ Chr Hhr0) as Bhr.
    pose proof (Forall_lookup_1 _ _ _ _ Cox Hox0) as Box.
    pose proof (Forall_lookup_1 _ _ _ _ Hsin Hsh) as Bsh.
    pose proof (Forall_lookup_1 _ _ _ _ Hdin Hdr) as [Bd1 Bd2].
    cbn in Bhr, Box, Bsh.
    rewrite Zle_Qle in Bd1, Bd2.
    change (inject_Z 5) with 5 in Bd1. change (inject_Z 14) with 14 in Bd2.
    apply shifted_row_in_outlier_range; auto; [|lra].
    destruct Bsh as [-> | ->].
    + change (inject_Z (-20)) with (-20 # 1). lra.
    + change (inject_Z 30) with 30. lra.
Qed.
End GeneratorProperties.


(** ** The detector *)

Section DetectorProperties.
Context `{Sklearn}.

(** C6. When [detect_anomalies] returns, its result keeps the rows of
    its argument and carries one flag per row; running it again on that
    result, with the monitor as the first run left it, returns the same
    monitor and the same dataset, so the same anomaly column: the flags
    of the first run are replaced, and they are no input to the second
    run. *)
Theorem detect_anomalies_idempotent self data self1 data1 :
  detect_anomalies self data = Ok (self1, data1) ->
  rows data1 = rows data /\
  (exists flags, anomaly data1 = Some flags /\ length flags = length (rows data)) /\
  detect_anomalies self1 data1 = Ok (self1, data1).
Proof.
  unfold detect_anomalies. intros Hrun.
  destruct (StandardScaler_fit_transform (map features (rows data)))
    as [[fitted_scaler X_scaled]|e] eqn:Escale; [|done].
  destruct (IsolationForest_fit_predict (contamination self) (random_state self)
              X_scaled) as [[fitted_forest anomalies]|e] eqn:Eforest; [|done].
  unfold set_anomaly in *.
  destruct (decide (length (map (fun a => Z.eqb a (-1)) anomalies)
                    = length (rows data))) as [Hlen|]; [|done].
  injection Hrun as <- <-. cbn.
  split; [reflexivity|]. split; [eauto|].
  rewrite Escale, Eforest. by rewrite decide_True.
Qed.
End DetectorProperties.

(** ** Concrete runs over the stand-ins *)

Lemma detect_anomalies_idempotent_witness :
  exists self1 data1,
    detect_with_stand_ins HealthMonitor_init idle_history = Ok (self1, data1) /\
    rows data1 = rows idle_history /\
    (exists flags, anomaly data1 = Some flags /\
                   length flags = length (rows idle_history)) /\
    detect_with_stand_ins self1 data1 = Ok (self1, data1).
Proof.
  destruct (detect_with_stand_ins HealthMonitor_init idle_history)
    as [[self1 data1]|e] eqn:Erun.
  - exists self1, data1. split; [reflexivity|].
    exact (@detect_anomalies_idempotent StandIn_Sklearn _ _ _ _ Erun).
  - vm_compute in Erun. discriminate Erun.
Defined.

(** C1, as stated, fails: the same arguments at two readings of the
    clock one hour apart give different timestamps and different
    values. *)
Lemma generate_same_arguments_counterexample :
  (generate_with_stand_ins 0 1 1 7%nat).1
    = Ok {| rows := [ {| timestamp := -86400000000000; heart_rate := 63;
                         blood_oxygen := 489 # 5; steps := 375;
                         sleep_quality := 31 # 5; stress_level := 16 # 5;
                         body_temperature := 496 # 5 |} ];
            anomaly := None |} /\
  (generate_with_stand_ins ns_per_hour 1 1 7%nat).1
    = Ok {| rows := [ {| timestamp := -82800000000000; heart_rate := 64;
                         blood_oxygen := 489 # 5; steps := 296;
                         sleep_quality := 67 # 10; stress_level := 14 # 5;
                         body_temperature := 496 # 5 |} ];
            anomaly := None |} /\
  (generate_with_stand_ins 0 1 1 7%nat).1
    <> (generate_with_stand_ins ns_per_hour 1 1 7%nat).1.
Proof.
  split_and!; [by vm_compute..|]. vm_compute. intros Heq. discriminate Heq.
Qed.

(** C2, as stated, fails: with 48 samples the indices 42 and 43 are
    selected; sample 42 has heart rate 62.9 before the injection, the
    shift is -20, and the returned heart rate is 42, below 50. *)
Lemma generated_out_of_domain_counterexample :
  (exists tr,
      trace_with_stand_ins 0 1 48 = Ok tr /\
      tr_outliers tr = {| anomaly_indices := [42; 43]%nat;
                          heart_rate_shift := [-20; 30]%Z;
                          blood_oxygen_drop := [9; 10]%Z |} /\
      astype_int <$> (sig_heart_rate (tr_signals tr) !! 42%nat) = Some 62%Z) /\
  (exists df,
      (generate_with_stand_ins 0 1 48 7%nat).1 = Ok df /\
      rows df !! 42%nat
      = Some {| timestamp := -9191489361703; heart_rate := 42;
                blood_oxygen := 439 # 5; steps := 736;
                sleep_quality := 23 # 5; stress_level := 59 # 10;
                body_temperature := 491 # 5 |}) /\
  ~ in_domain {| timestamp := -9191489361703; heart_rate := 42;
                 blood_oxygen := 439 # 5; steps := 736;
                 sleep_quality := 23 # 5; stress_level := 59 # 10;
                 body_temperature := 491 # 5 |}.
Proof.
  split_and!.
  - eexists. split; [by vm_compute|]. split; by vm_compute.
  - eexists. split; by vm_compute.
  - unfold in_domain. cbn. lia.
Qed.

Lemma generated_rows_in_domain_unless_injected_witness :
  exists df,
    (generate_with_stand_ins 0 1 48 7%nat).1 = Ok df /\
    exists tr,
      trace_with_stand_ins 0 1 48 = Ok tr /\
      forall (i : nat) row, rows df !! i = Some row ->
        (i ∉ anomaly_indices (tr_outliers tr) -> in_domain row) /\
        (i ∈ anomaly_indices (tr_outliers tr) -> in_outlier_range row).
Proof.
  destruct (generate_with_stand_ins 0 1 48 7%nat).1 as [df|e] eqn:Erun.
  - exists df. split; [reflexivity|].
    exact (@generated_rows_in_domain_unless_injected
             StandIn_NumpyRandom StandIn_NumpyMath _ _ _ _ _ Erun).
  - vm_compute in Erun. discriminate Erun.
Defined.

(** C5, as stated, fails: with 24 samples one index is selected, and
    5% of 24 rounded up is 2. *)
Lemma outlier_count_counterexample :
  (exists tr,
      trace_with_stand_ins 0 1 24 = Ok tr /\
      tr_outliers tr = {| anomaly_indices := [18]%nat;
                          heart_rate_shift := [30]%Z;
                          blood_oxygen_drop := [13]%Z |}) /\
  outlier_count 24 = 1%nat /\
  spec_outlier_count 24 = 2%nat.
Proof.
  split_and!; [|reflexivity..].
  eexists. split; by vm_compute.
Qed.

Lemma outlier_injection_selects_floor_and_shifts_witness :
  exists tr,
    trace_with_stand_ins 0 1 24 = Ok tr /\
    length (anomaly_indices (tr_outliers tr)) = (Z.to_nat (1 * 24) / 20)%nat /\
    NoDup (anomaly_indices (tr_outliers tr)) /\
    Forall (fun i => (i < Z.to_nat (1 * 24))%nat)
           (anomaly_indices (tr_outliers tr)).
Proof.
  destruct (trace_with_stand_ins 0 1 24) as [tr|e] eqn:Erun.
  - exists tr. split; [reflexivity|].
    pose proof (@outlier_injection_selects_floor_and_shifts
                  StandIn_NumpyRandom StandIn_NumpyMath _ _ _ _ Erun)
      as (Hcount & Hnd & Hlt & _).
    auto.
  - vm_compute in Erun. discriminate Erun.
Defined.




(** * Further properties of the code *)


(** ** The health score, continued *)

Lemma calculate_health_score_Ok data latest :
  last (rows data) = Some latest ->
  calculate_health_score data = Ok (round1 (weighted_score latest)).
Proof.
  intros Hlast. unfold calculate_health_score.
  by rewrite (iloc_last_Some _ _ Hlast).
Qed.


Lemma weighted_score_unfold latest :
  weighted_score latest
  = 0 + 0.2 * hr_score latest + 0.2 * oxygen_score latest
      + 0.15 * activity_score latest + 0.2 * sleep_score latest
      + 0.15 * stress_score latest + 0.1 * temp_score latest.
Proof. reflexivity. Qed.

Lemma py_min_mono c x y : x <= y -> py_min c x <= py_min c y.
Proof.
  intros Hxy.
  destruct (py_min_spec c x) as [[? ->]|[? ->]];
    destruct (py_min_spec c y) as [[? ->]|[? ->]]; lra.
Qed.

Lemma py_max_proper c x y : x == y -> py_max c x == py_max c y.
Proof.
  intros Hxy.
  destruct (py_max_spec c x) as [[? ->]|[? ->]];
    destruct (py_max_spec c y) as [[? ->]|[? ->]]; lra.
Qed.

(** X1. The score never decreases when, with heart rate and body
    temperature unchanged, blood oxygen, steps and sleep quality do not
    decrease and the stress level does not increase. *)
Theorem score_monotone data1 data2 latest1 latest2 :
  last (rows data1) = Some latest1 ->
  last (rows data2) = Some latest2 ->
  heart_rate latest1 = heart_rate latest2 ->
  body_temperature latest1 == body_temperature latest2 ->
  blood_oxygen latest1 <= blood_oxygen latest2 ->
  (steps latest1 <= steps latest2)%Z ->
  sleep_quality latest1 <= sleep_quality latest2 ->
  stress_level latest2 <= stress_level latest1 ->
  exists v1 v2,
    calculate_health_score data1 = Ok v1 /\
    calculate_health_score data2 = Ok v2 /\
    v1 <= v2.
Proof.
  intros Hl1 Hl2 Hhr Hbt Hox Hst Hsl Hsr.
  exists (round1 (weighted_score latest1)), (round1 (weighted_score latest2)).
  split; [by apply calculate_health_score_Ok|].
  split; [by apply calculate_health_score_Ok|].
  apply round1_mono. rewrite !weighted_score_unfold.
  assert (hr_score latest1 == hr_score latest2) as Ehr
    by (unfold hr_score; by rewrite Hhr).
  assert (temp_score latest1 == temp_score latest2) as Ebt.
  { unfold temp_score. apply py_max_proper. by rewrite Hbt. }
  assert (oxygen_score latest1 <= oxygen_score latest2) as Lox
    by (unfold oxygen_score; apply py_min_mono; lra).
  assert (activity_score latest1 <= activity_score latest2) as Lac.
  { unfold activity_score. apply py_min_mono.
    rewrite Zle_Qle in Hst. tenths. lra. }
  unfold sleep_score, stress_score. lra.
Qed.

Lemma score_monotone_witness :
  exists v1 v2,
    calculate_health_score idle_history = Ok v1 /\
    calculate_health_score busy_history = Ok v2 /\
    v1 <= v2.
Proof.
  apply (score_monotone idle_history busy_history scenario scenario);
    try reflexivity; unfold Qle; cbn; lia.
Defined.

(** The bounds of the score need no domain bound on heart rate or
    temperature. *)
Lemma score_range_of_plausible_sample data latest :
  last (rows data) = Some latest ->
  (Z.abs (heart_rate latest - 70) < 4611686018427387904)%Z ->
  0 <= blood_oxygen latest ->
  (0 <= steps latest)%Z ->
  0 <= sleep_quality latest <= 10 ->
  0 <= stress_level latest <= 10 ->
  exists v, calculate_health_score data = Ok v /\ 0 <= v <= 100.
Proof.
  intros Hlast Hhr Hox Hst Hsl Hsr. eexists.
  split; [by apply calculate_health_score_Ok|].
  pose proof (hr_score_bounds latest Hhr).
  pose proof (temp_score_bounds latest).
  pose proof (oxygen_score_bounds latest Hox).
  pose proof (activity_score_bounds latest Hst).
  assert (0 <= sleep_score latest <= 100) by (unfold sleep_score; lra).
  assert (0 <= stress_score latest <= 100) by (unfold stress_score; lra).
  apply (round1_bounds 0 1000); [reflexivity..|].
  rewrite weighted_score_unfold. lra.
Qed.

(** X2. Whatever the body temperature of the latest sample, and for
    every heart rate that stays within [2 ^ 62] of 70 (so that the
    64-bit integer arithmetic of line 179 does not wrap around), the
    score is between 0 and 100 as soon as the blood oxygen and steps
    are not negative and the sleep quality and stress level are between
    0 and 10. *)
Theorem score_in_range_any_heart_rate data latest :
  last (rows data) = Some latest ->
  (Z.abs (heart_rate latest - 70) < 4611686018427387904)%Z ->
  0 <= blood_oxygen latest ->
  (0 <= steps latest)%Z ->
  0 <= sleep_quality latest <= 10 ->
  0 <= stress_level latest <= 10 ->
  exists v, calculate_health_score data = Ok v /\ 0 <= v <= 100.
Proof. exact (score_range_of_plausible_sample data latest). Qed.


(** ** Insights, continued *)

Lemma generate_health_insights_Ok data latest :
  last (rows data) = Some latest ->
  generate_health_insights data
  = Ok (heart_rate_rule data latest ++ oxygen_rule latest
        ++ activity_rule data latest ++ sleep_rule latest
        ++ stress_rule latest).
Proof.
  intros Hlast. unfold generate_health_insights.
  rewrite (iloc_last_Some _ _ Hlast). cbv zeta.
  by rewrite app_nil_l, <- !app_assoc.
Qed.

Lemma heart_rate_rule_elem data latest m :
  m ∈ heart_rate_rule data latest <->
  (m = MSG_HR_ELEVATED /\ mean_heart_rate data + 20 < inject_Z (heart_rate latest)) \/
  (m = MSG_HR_GREAT /\ inject_Z (heart_rate latest) < mean_heart_rate data - 15).
Proof.
  unfold heart_rate_rule, mean_heart_rate. cbv zeta.
  repeat destruct (Qlt_le_dec _ _);
    rewrite ?list_elem_of_singleton, ?elem_of_nil; intuition lra.
Qed.

Lemma oxygen_rule_elem latest m :
  m ∈ oxygen_rule latest <->
  (m = MSG_OXYGEN_LOW /\ blood_oxygen latest < 95) \/
  (m = MSG_OXYGEN_OK /\ 95 <= blood_oxygen latest).
Proof.
  unfold oxygen_rule.
  repeat destruct (Qlt_le_dec _ _);
    rewrite ?list_elem_of_singleton, ?elem_of_nil; intuition lra.
Qed.

Lemma activity_rule_elem data latest m :
  m ∈ activity_rule data latest <->
  (m = MSG_LESS_ACTIVE /\ inject_Z (steps latest) < mean_steps data * 0.7) \/
  (m = MSG_ACTIVE /\ mean_steps data * 0.7 <= inject_Z (steps latest)
                  /\ mean_steps data * 1.3 < inject_Z (steps latest)).
Proof.
  unfold activity_rule, mean_steps. cbv zeta.
  repeat destruct (Qlt_le_dec _ _);
    rewrite ?list_elem_of_singleton, ?elem_of_nil; intuition lra.
Qed.

Lemma sleep_rule_elem latest m :
  m ∈ sleep_rule latest <->
  (m = MSG_SLEEP_POOR /\ sleep_quality latest < 6) \/
  (m = MSG_SLEEP_GOOD /\ 8 < sleep_quality latest).
Proof.
  unfold sleep_rule.
  repeat destruct (Qlt_le_dec _ _);
    rewrite ?list_elem_of_singleton, ?elem_of_nil; intuition lra.
Qed.

Lemma stress_rule_elem latest m :
  m ∈ stress_rule latest <->
  (m = MSG_STRESS_HIGH /\ 7 < stress_level latest) \/
  (m = MSG_STRESS_LOW /\ stress_level latest < 4).
Proof.
  unfold stress_rule.
  repeat destruct (Qlt_le_dec _ _);
    rewrite ?list_elem_of_singleton, ?elem_of_nil; intuition lra.
Qed.

(** Which rule can emit a message, and when. *)
Lemma insights_elem data latest l m :
  last (rows data) = Some latest ->
  generate_health_insights data = Ok l ->
  m ∈ l <->
  (m = MSG_HR_ELEVATED /\ mean_heart_rate data + 20 < inject_Z (heart_rate latest)) \/
  (m = MSG_HR_GREAT /\ inject_Z (heart_rate latest) < mean_heart_rate data - 15) \/
  (m = MSG_OXYGEN_LOW /\ blood_oxygen latest < 95) \/
  (m = MSG_OXYGEN_OK /\ 95 <= blood_oxygen latest) \/
  (m = MSG_LESS_ACTIVE /\ inject_Z (steps latest) < mean_steps data * 0.7) \/
  (m = MSG_ACTIVE /\ mean_steps data * 0.7 <= inject_Z (steps latest)
                  /\ mean_steps data * 1.3 < inject_Z (steps latest)) \/
  (m = MSG_SLEEP_POOR /\ sleep_quality latest < 6) \/
  (m = MSG_SLEEP_GOOD /\ 8 < sleep_quality latest) \/
  (m = MSG_STRESS_HIGH /\ 7 < stress_level latest) \/
  (m = MSG_STRESS_LOW /\ stress_level latest < 4).
Proof.
  intros Hlast Hl. rewrite (generate_health_insights_Ok _ _ Hlast) in Hl.
  injection Hl as <-.
  rewrite !elem_of_app, heart_rate_rule_elem, oxygen_rule_elem,
    activity_rule_elem, sleep_rule_elem, stress_rule_elem.
  tauto.
Qed.

(** X4. Each of the ten messages is in the returned list exactly when
    its own threshold condition holds for the latest sample (and, for
    the second activity message, the first did not match): one message
    is never emitted for another's condition. *)
Theorem insights_message_conditions data latest l :
  last (rows data) = Some latest ->
  generate_health_insights data = Ok l ->
  (MSG_HR_ELEVATED ∈ l <->
     mean_heart_rate data + 20 < inject_Z (heart_rate latest)) /\
  (MSG_HR_GREAT ∈ l <->
     inject_Z (heart_rate latest) < mean_heart_rate data - 15) /\
  (MSG_OXYGEN_LOW ∈ l <-> blood_oxygen latest < 95) /\
  (MSG_OXYGEN_OK ∈ l <-> 95 <= blood_oxygen latest) /\
  (MSG_LESS_ACTIVE ∈ l <->
     inject_Z (steps latest) < mean_steps data * 0.7) /\
  (MSG_ACTIVE ∈ l <->
     mean_steps data * 0.7 <= inject_Z (steps latest) /\
     mean_steps data * 1.3 < inject_Z (steps latest)) /\
  (MSG_SLEEP_POOR ∈ l <-> sleep_quality latest < 6) /\
  (MSG_SLEEP_GOOD ∈ l <-> 8 < sleep_quality latest) /\
  (MSG_STRESS_HIGH ∈ l <-> 7 < stress_level latest) /\
  (MSG_STRESS_LOW ∈ l <-> stress_level latest < 4).
Proof.
  intros Hlast Hl.
  split_and!; rewrite (insights_elem _ _ _ _ Hlast Hl);
    (split; [intros H; decompose [or and] H; try discriminate; auto
            |intros H; auto 15]).
Qed.

Lemma score_in_range_any_heart_rate_witness :
  exists v, calculate_health_score scenario_frame = Ok v /\ 0 <= v <= 100.
Proof.
  apply (score_in_range_any_heart_rate scenario_frame scenario);
    first [reflexivity | unfold Qle; cbn; lia].
Defined.


Lemma insights_message_conditions_witness :
  (MSG_HR_ELEVATED ∈ [MSG_OXYGEN_OK; MSG_STRESS_LOW] <->
     mean_heart_rate scenario_frame + 20 < inject_Z (heart_rate scenario)) /\
  (MSG_HR_GREAT ∈ [MSG_OXYGEN_OK; MSG_STRESS_LOW] <->
     inject_Z (heart_rate scenario) < mean_heart_rate scenario_frame - 15) /\
  (MSG_OXYGEN_LOW ∈ [MSG_OXYGEN_OK; MSG_STRESS_LOW] <->
     blood_oxygen scenario < 95) /\
  (MSG_OXYGEN_OK ∈ [MSG_OXYGEN_OK; MSG_STRESS_LOW] <->
     95 <= blood_oxygen scenario) /\
  (MSG_LESS_ACTIVE ∈ [MSG_OXYGEN_OK; MSG_STRESS_LOW] <->
     inject_Z (steps scenario) < mean_steps scenario_frame * 0.7) /\
  (MSG_ACTIVE ∈ [MSG_OXYGEN_OK; MSG_STRESS_LOW] <->
     mean_steps scenario_frame * 0.7 <= inject_Z (steps scenario) /\
     mean_steps scenario_frame * 1.3 < inject_Z (steps scenario)) /\
  (MSG_SLEEP_POOR ∈ [MSG_OXYGEN_OK; MSG_STRESS_LOW] <->
     sleep_quality scenario < 6) /\
  (MSG_SLEEP_GOOD ∈ [MSG_OXYGEN_OK; MSG_STRESS_LOW] <->
     8 < sleep_quality scenario) /\
  (MSG_STRESS_HIGH ∈ [MSG_OXYGEN_OK; MSG_STRESS_LOW] <->
     7 < stress_level scenario) /\
  (MSG_STRESS_LOW ∈ [MSG_OXYGEN_OK; MSG_STRESS_LOW] <->
     stress_level scenario < 4).
Proof.
  apply (insights_message_conditions scenario_frame scenario); reflexivity.
Defined.

(** ** The detector, continued *)

Section DetectorFurther.
Context `{Sklearn}.

Lemma detect_anomalies_inv self data self1 data1 :
  detect_anomalies self data = Ok (self1, data1) ->
  exists fitted_scaler X_scaled fitted_forest anomalies,
    StandardScaler_fit_transform (map features (rows data))
      = Ok (fitted_scaler, X_scaled) /\
    IsolationForest_fit_predict (contamination self) (random_state self) X_scaled
      = Ok (fitted_forest, anomalies) /\
    length anomalies = length (rows data) /\
    data1 = {| rows := rows data;
               anomaly := Some (map (fun a => Z.eqb a (-1)) anomalies) |} /\
    self1 = {| scaler := Some fitted_scaler;
               contamination := contamination self;
               random_state := random_state self;
               anomaly_detector := Some fitted_forest;
               is_trained := is_trained self |}.
Proof.
  unfold detect_anomalies, set_anomaly. intros Hrun.
  destruct (StandardScaler_fit_transform _)
    as [[fitted_scaler X_scaled]|e] eqn:Escale; [|done].
  destruct (IsolationForest_fit_predict _ _ _)
    as [[fitted_forest anomalies]|e] eqn:Eforest; [|done].
  destruct (decide _) as [Hlen|]; [|done].
  injection Hrun as <- <-. rewrite length_map in Hlen.
  exists fitted_scaler, X_scaled, fitted_forest, anomalies. split_and!; done.
Qed.

(** X5. What [detect_anomalies] returns depends on the dataset's rows
    and on the monitor's contamination and random state only: an
    earlier fit stored in the monitor and an anomaly column already in
    the dataset change nothing in the returned dataset or in the fitted
    scaler and forest. *)
Theorem detect_anomalies_ignores_history self self' data data' self1 data1 :
  contamination self = contamination self' ->
  random_state self = random_state self' ->
  rows data = rows data' ->
  detect_anomalies self data = Ok (self1, data1) ->
  exists self1',
    detect_anomalies self' data' = Ok (self1', data1) /\
    scaler self1' = scaler self1 /\
    anomaly_detector self1' = anomaly_detector self1.
Proof.
  intros Hc Hr Hrows Hrun.
  apply detect_anomalies_inv in Hrun
    as (fs & X & ff & an & Escale & Eforest & Hlen & -> & ->).
  unfold detect_anomalies, set_anomaly.
  rewrite <- Hrows, Escale, <- Hc, <- Hr, Eforest.
  rewrite decide_True by (by rewrite length_map).
  eexists. split; [reflexivity|]. split; reflexivity.
Qed.

(** X6. Attaching the anomaly column changes neither the score nor the
    insights of a dataset. *)
Theorem detect_anomalies_keeps_score_and_insights self data self1 data1 :
  detect_anomalies self data = Ok (self1, data1) ->
  calculate_health_score data1 = calculate_health_score data /\
  generate_health_insights data1 = generate_health_insights data.
Proof.
  intros Hrun.
  apply detect_anomalies_inv in Hrun as (fs & X & ff & an & _ & _ & _ & -> & _).
  split; reflexivity.
Qed.
End DetectorFurther.

(** ** The generator, continued *)

(** The code's count against the specification's: one less, except
    when the number of samples is a multiple of twenty. *)
Lemma Qceiling_twentieth n :
  Qceiling (0.05 * inject_Z (Z.of_nat n))
  = (Z.of_nat n / 20 + (if decide (Z.of_nat n mod 20 = 0) then 0 else 1))%Z.
Proof.
  unfold Qceiling, Qfloor.
  change (let (n0, d) := - (0.05 * inject_Z (Z.of_nat n)) in (n0 / Z.pos d)%Z)
    with (- (5 * Z.of_nat n) / 100)%Z.
  pose proof (Z.div_mod (Z.of_nat n) 20 ltac:(lia)) as Hdm.
  pose proof (Z.mod_pos_bound (Z.of_nat n) 20 ltac:(lia)) as Hr.
  destruct (decide (Z.of_nat n mod 20 = 0)%Z) as [H0|H0].
  - assert (- (5 * Z.of_nat n) = (- (Z.of_nat n / 20)) * 100)%Z as -> by lia.
    rewrite Z.div_mul by lia. lia.
  - assert (- (5 * Z.of_nat n) / 100 = - (Z.of_nat n / 20) - 1)%Z as ->; [|lia].
    symmetry.
    apply (Z.div_unique _ _ _ (100 - 5 * (Z.of_nat n mod 20))); lia.
Qed.

(** X7. The number of injected outliers is the specification's count
    (5% of the samples, rounded up) when the number of samples is a
    multiple of 20, and one less otherwise. *)
Theorem outlier_count_against_ceiling n :
  spec_outlier_count n
  = (outlier_count n + (if decide (n mod 20 = 0) then 0 else 1))%nat.
Proof.
  unfold spec_outlier_count. rewrite Qceiling_twentieth, outlier_count_floor.
  assert (Z.of_nat n mod 20 = Z.of_nat (n mod 20))%Z as Hmod
    by (by rewrite Nat2Z.inj_mod).
  assert (Z.of_nat n / 20 = Z.of_nat (n / 20))%Z as Hdiv
    by (by rewrite Nat2Z.inj_div).
  rewrite Hmod, Hdiv.
  destruct (decide (n mod 20 = 0)%nat) as [H0|H0].
  - rewrite decide_True by lia. lia.
  - rewrite decide_False by lia. lia.
Qed.

(** *** Timestamps *)

Lemma np_linspace_int64_lookup stop num (i : nat) :
  (0 <= stop)%Z -> (2 <= num)%nat -> (i < num)%nat ->
  np_linspace_int64 stop num !! i
  = Some (Z.of_nat i * stop / Z.of_nat (num - 1))%Z.
Proof.
  intros Hstop Hnum Hi. unfold np_linspace_int64.
  rewrite list_lookup_fmap, lookup_seq_lt by done.
  cbn -[Qfloor Qmult Qdiv inject_Z Z.mul Z.div Nat.sub].
  rewrite decide_False by lia. f_equal.
  destruct (decide (i = num - 1)%nat) as [->|Hne].
  - rewrite Z.mul_comm, Z.div_mul by lia. reflexivity.
  - assert (inject_Z (Z.of_nat i)
              * (inject_Z stop / inject_Z (Z.of_nat (num - 1)))
            == (Z.of_nat i * stop) # Pos.of_nat (num - 1)) as Heq.
    { unfold Qeq, Qdiv, Qmult, Qinv, inject_Z. cbn.
      destruct (Z.of_nat (num - 1)) as [|p|p] eqn:Ep; [lia| |lia].
      cbn. assert (Z.pos (Pos.of_nat (num - 1)) = Z.pos p) as ->.
      { rewrite <- Ep. rewrite <- (Nat2Pos.id (num - 1)) at 2 by lia.
        by rewrite positive_nat_Z. }
      lia. }
    rewrite (Qfloor_comp _ _ Heq). unfold Qfloor. f_equal.
    rewrite <- (Nat2Pos.id (num - 1)) at 2 by lia.
    by rewrite positive_nat_Z.
Qed.

Lemma pd_date_range_lookup start_date end_date periods timestamps (i : nat) :
  (start_date <= end_date)%Z -> (2 <= periods)%Z ->
  pd_date_range start_date end_date periods = Ok timestamps ->
  (i < Z.to_nat periods)%nat ->
  timestamps !! i
  = Some (Z.of_nat i * (end_date - start_date) / (periods - 1) + start_date)%Z.
Proof.
  intros Hle Hp Hts Hi.
  apply pd_date_range_Ok_inv in Hts as (_ & _ & _ & ->).
  rewrite list_lookup_fmap, np_linspace_int64_lookup by lia. cbn.
  do 3 f_equal. lia.
Qed.

Lemma pd_date_range_first start_date end_date periods timestamps :
  (1 <= periods)%Z ->
  pd_date_range start_date end_date periods = Ok timestamps ->
  timestamps !! 0%nat = Some start_date.
Proof.
  intros Hp Hts.
  apply pd_date_range_Ok_inv in Hts as (_ & _ & _ & ->).
  unfold np_linspace_int64.
  rewrite !list_lookup_fmap, lookup_seq_lt by lia.
  cbn -[Qfloor Qmult Qdiv inject_Z Z.mul Z.div Nat.sub].
  destruct (decide (Z.to_nat periods - 1 = 0)%nat); [done|].
  rewrite decide_False by lia.
  assert (inject_Z (Z.of_nat 0)
            * (inject_Z (end_date - start_date)
               / inject_Z (Z.of_nat (Z.to_nat periods - 1))) == 0) as Heq
    by (change (inject_Z (Z.of_nat 0)) with 0; ring).
  by rewrite (Qfloor_comp _ _ Heq).
Qed.

Lemma pd_date_range_last start_date end_date periods timestamps :
  (2 <= periods)%Z ->
  pd_date_range start_date end_date periods = Ok timestamps ->
  last timestamps = Some end_date.
Proof.
  intros Hp Hts.
  apply pd_date_range_Ok_inv in Hts as (_ & _ & _ & ->).
  rewrite last_lookup, length_map, length_np_linspace_int64.
  unfold np_linspace_int64.
  rewrite !list_lookup_fmap, lookup_seq_lt by lia.
  cbn -[Qfloor Qmult Qdiv inject_Z Z.mul Z.div Nat.sub].
  rewrite decide_False by lia. rewrite decide_True by lia. cbn.
  f_equal. lia.
Qed.

Section GeneratorFurther.
Context `{NumpyRandom} `{NumpyMath}.

(** A returned frame, row by row: the timestamps of [pd.date_range] and
    the converted signals after the injection step. *)
Lemma generate_sample_data_rows now days samples_per_day g df :
  (generate_sample_data now days samples_per_day g).1 = Ok df ->
  exists timestamps s o s',
    pd_date_range (now - days * ns_per_day) now (days * samples_per_day)
      = Ok timestamps /\
    length timestamps = Z.to_nat (days * samples_per_day) /\
    length (rows df) = Z.to_nat (days * samples_per_day) /\
    signals_length s (length timestamps) /\
    signals_clipped s /\
    outliers_drawn o (length timestamps) /\
    inject_outliers s o = Ok s' /\
    forall i : nat, rows df !! i = frame_row timestamps s' i.
Proof.
  intros Hdf.
  destruct (generate_sample_data_Ok_window _ _ _ _ _ Hdf) as [Hw Hn].
  pose proof (window_representable_spec _ _ Hw) as (Hm & _ & _).
  destruct (generate_sample_data_anatomy now days samples_per_day g Hw Hn)
    as (tr & s' & df' & Htr & Hlen & Hslen & Hclip & Ho & Es' & _ & Hdf' & _
        & Hrlen & Hrows).
  rewrite Hdf in Hdf'. injection Hdf' as <-.
  exists (tr_timestamps tr), (tr_signals tr), (tr_outliers tr), s'.
  split_and!; auto; [|congruence].
  unfold generate_trace in Htr. rewrite Hm in Htr.
  destruct (pd_date_range _ _ _) as [timestamps|e]; [|done].
  destruct (seeded_draws _) as [[s o] g']. by injection Htr as <-.
Qed.

(** Every row of a returned frame is either within the domains or, at
    one of the [total / 20] selected indices, within the wider bounds
    the injection leaves. *)
Lemma generated_row_ranges now days samples_per_day g df :
  (generate_sample_data now days samples_per_day g).1 = Ok df ->
  exists idx : list nat,
    length idx = (Z.to_nat (days * samples_per_day) / 20)%nat /\
    NoDup idx /\
    forall (i : nat) row, rows df !! i = Some row ->
      (i ∉ idx -> in_domain row) /\ (i ∈ idx -> in_outlier_range row).
Proof.
  intros Hdf.
  destruct (generate_sample_data_rows _ _ _ _ _ Hdf)
    as (timestamps & s & o & s' & _ & Hlen & _ & Hslen & Hclip & Ho & Es' & Hrows).
  destruct (inject_outliers_spec _ _ _ Hslen Ho)
    as (s'' & Es'' & _ & Est & Esl & Esr & Ebt & Hout & Hin).
  rewrite Es' in Es''. injection Es'' as <-.
  destruct Hclip as (Chr & Cox & Cst & Csl & Csr & Cbt).
  destruct Ho as (Hcount & Hnd & _ & _ & Hsin & _ & Hdin).
  exists (anomaly_indices o).
  split; [by rewrite Hcount, outlier_count_floor, Hlen|]. split; [done|].
  intros i row Hrow. rewrite Hrows in Hrow.
  apply frame_row_Some in Hrow
    as (t & hr & ox & st & sl & sr & bt & _ & Hhr & Hox & Hst & Hsl & Hsr & Hbt & ->).
  rewrite Est in Hst. rewrite Esl in Hsl. rewrite Esr in Hsr. rewrite Ebt in Hbt.
  pose proof (Forall_lookup_1 _ _ _ _ Cst Hst) as Bst.
  pose proof (Forall_lookup_1 _ _ _ _ Csl Hsl) as Bsl.
  pose proof (Forall_lookup_1 _ _ _ _ Csr Hsr) as Bsr.
  pose proof (Forall_lookup_1 _ _ _ _ Cbt Hbt) as Bbt.
  cbn in Bst, Bsl, Bsr, Bbt. split.
  - intros Hi. destruct (Hout i Hi) as [Ehr Eox].
    rewrite Ehr in Hhr. rewrite Eox in Hox.
    pose proof (Forall_lookup_1 _ _ _ _ Chr Hhr) as Bhr.
    pose proof (Forall_lookup_1 _ _ _ _ Cox Hox) as Box.
    by apply clipped_row_in_domain.
  - intros Hi. apply list_elem_of_lookup_1 in Hi as [k Hk].
    destruct (Hin k i Hk)
      as (hr0 & ox0 & shift & drop & Hhr0 & Hox0 & Hsh & Hdr & Hhr' & Hox').
    rewrite Hhr' in Hhr. injection Hhr as <-.
    rewrite Hox' in Hox. injection Hox as <-.
    pose proof (Forall_lookup_1 _ _ _ _ Chr Hhr0) as Bhr.
    pose proof (Forall_lookup_1 _ _ _ _ Cox Hox0) as Box.
    pose proof (Forall_lookup_1 _ _ _ _ Hsin Hsh) as Bsh.
    pose proof (Forall_lookup_1 _ _ _ _ Hdin Hdr) as [Bd1 Bd2].
    cbn in Bhr, Box, Bsh.
    rewrite Zle_Qle in Bd1, Bd2.
    change (inject_Z 5) with 5 in Bd1. change (inject_Z 14) with 14 in Bd2.
    apply shifted_row_in_outlier_range; auto; [|lra].
    destruct Bsh as [-> | ->].
    + change (inject_Z (-20)) with (-20 # 1). lra.
    + change (inject_Z 30) with 30. lra.
Qed.

Lemma generated_row_timestamp now days samples_per_day g df timestamps (i : nat) row :
  (generate_sample_data now days samples_per_day g).1 = Ok df ->
  pd_date_range (now - days * ns_per_day) now (days * samples_per_day)
    = Ok timestamps ->
  rows df !! i = Some row ->
  timestamps !! i = Some (timestamp row).
Proof.
  intros Hdf Hts Hrow.
  destruct (generate_sample_data_rows _ _ _ _ _ Hdf)
    as (timestamps' & s & o & s' & Hts' & _ & _ & _ & _ & _ & _ & Hrows).
  rewrite Hts in Hts'. injection Hts' as <-.
  rewrite Hrows in Hrow.
  apply frame_row_Some in Hrow as (t & ? & ? & ? & ? & ? & ? & Ht & _ & _ & _ & _ & _ & _ & ->).
  exact Ht.
Qed.

(** X8. A returned dataset with at least one row starts [days] days
    before the clock reading; with at least two rows it ends at the
    clock reading.  (With exactly one row, that row is dated [days]
    days back, not now.) *)
Theorem generate_spans_requested_window now days samples_per_day g df :
  (generate_sample_data now days samples_per_day g).1 = Ok df ->
  (forall first, rows df !! 0%nat = Some first ->
                 timestamp first = (now - days * ns_per_day)%Z) /\
  (forall latest, (2 <= days * samples_per_day)%Z ->
                  last (rows df) = Some latest -> timestamp latest = now).
Proof.
  intros Hdf.
  destruct (generate_sample_data_rows _ _ _ _ _ Hdf)
    as (timestamps & s & o & s' & Hts & Hlen & Hrlen & _).
  split.
  - intros first Hfirst.
    pose proof (generated_row_timestamp _ _ _ _ _ _ _ _ Hdf Hts Hfirst) as Ht.
    assert (1 <= days * samples_per_day)%Z as Hn.
    { apply lookup_lt_Some in Hfirst. lia. }
    rewrite (pd_date_range_first _ _ _ _ Hn Hts) in Ht. by injection Ht.
  - intros latest Hn Hlast. rewrite last_lookup in Hlast.
    pose proof (generated_row_timestamp _ _ _ _ _ _ _ _ Hdf Hts Hlast) as Ht.
    pose proof (pd_date_range_last _ _ _ _ Hn Hts) as Hl.
    rewrite last_lookup, Hlen, <- Hrlen in Hl. rewrite Hl in Ht.
    by injection Ht.
Qed.

(** X9. For at least one day and between one sample and one sample per
    nanosecond a day, the timestamps of the returned dataset strictly
    increase with the row index. *)
Theorem generate_timestamps_increase now days samples_per_day g df
    (i j : nat) ri rj :
  (1 <= days)%Z ->
  (1 <= samples_per_day <= ns_per_day)%Z ->
  (generate_sample_data now days samples_per_day g).1 = Ok df ->
  rows df !! i = Some ri -> rows df !! j = Some rj ->
  (i < j)%nat ->
  (timestamp ri < timestamp rj)%Z.
Proof.
  intros Hdays Hspd Hdf Hi Hj Hij.
  destruct (generate_sample_data_rows _ _ _ _ _ Hdf)
    as (timestamps & s & o & s' & Hts & Hlen & Hrlen & _).
  pose proof (generated_row_timestamp _ _ _ _ _ _ _ _ Hdf Hts Hi) as Hti.
  pose proof (generated_row_timestamp _ _ _ _ _ _ _ _ Hdf Hts Hj) as Htj.
  apply lookup_lt_Some in Hi, Hj. rewrite Hrlen in Hi, Hj.
  assert (0 < ns_per_day)%Z as Hday by done.
  assert (2 <= days * samples_per_day)%Z as Hn by lia.
  assert (now - days * ns_per_day <= now)%Z as Hle by nia.
  rewrite (pd_date_range_lookup _ _ _ _ _ Hle Hn Hts) in Hti by lia.
  rewrite (pd_date_range_lookup _ _ _ _ _ Hle Hn Hts) in Htj by lia.
  injection Hti as <-. injection Htj as <-.
  set (span := (now - (now - days * ns_per_day))%Z).
  set (div := (days * samples_per_day - 1)%Z).
  assert (0 < div <= span)%Z as Hdiv by (unfold div, span; nia).
  assert (Z.of_nat i * span / div + 1 <= Z.of_nat j * span / div)%Z; [|lia].
  rewrite <- (Z.div_add _ 1 div) by lia.
  apply Z.div_le_mono; [lia|]. nia.
Qed.


(** X11. In a returned dataset the blood oxygen, sleep quality, stress
    level and body temperature of every row are multiples of one
    tenth. *)
Theorem generated_fields_have_one_decimal now days samples_per_day g df
    (i : nat) row :
  (generate_sample_data now days samples_per_day g).1 = Ok df ->
  rows df !! i = Some row ->
  exists ox sl sr bt : Z,
    blood_oxygen row == inject_Z ox / 10 /\
    sleep_quality row == inject_Z sl / 10 /\
    stress_level row == inject_Z sr / 10 /\
    body_temperature row == inject_Z bt / 10.
Proof.
  intros Hdf Hrow.
  destruct (generate_sample_data_rows _ _ _ _ _ Hdf)
    as (timestamps & s & o & s' & _ & _ & _ & _ & _ & _ & _ & Hrows).
  rewrite Hrows in Hrow.
  apply frame_row_Some in Hrow
    as (t & hr & ox & st & sl & sr & bt & _ & _ & _ & _ & _ & _ & _ & ->).
  cbn. exists (rint (ox * 10)), (rint (sl * 10)), (rint (sr * 10)),
         (rint (bt * 10)).
  split_and!; apply round1_tenths.
Qed.

(** X12. At most [total_samples / 20] (rounded down) rows of a returned
    dataset have a field outside its domain, and such a row still has
    its heart rate between 30 and 150, its blood oxygen between 71 and
    95 and its other fields within their domains. *)
Theorem generated_rows_outside_domain_are_few now days samples_per_day g df :
  (generate_sample_data now days samples_per_day g).1 = Ok df ->
  exists idx : list nat,
    length idx = (Z.to_nat (days * samples_per_day) / 20)%nat /\
    NoDup idx /\
    forall (i : nat) row, rows df !! i = Some row -> ~ in_domain row ->
      i ∈ idx /\ in_outlier_range row.
Proof.
  intros Hdf.
  destruct (generated_row_ranges _ _ _ _ _ Hdf) as (idx & Hlen & Hnd & Hrows).
  exists idx. split; [done|]. split; [done|].
  intros i row Hrow Hout. destruct (Hrows i row Hrow) as [Hin_dom Hin_out].
  destruct (decide (i ∈ idx)) as [Hi|Hi]; [auto|].
  destruct Hout. auto.
Qed.
End GeneratorFurther.

(** ** The dashboard *)






(** X15. On a dataset with a single row the heart-rate rule is silent,
    and so is the activity rule unless the step count is negative: a
    sample cannot differ from a mean it is alone in. *)
Theorem insights_of_single_row r flags l :
  generate_health_insights {| rows := [r]; anomaly := flags |} = Ok l ->
  (MSG_HR_ELEVATED ∉ l) /\ (MSG_HR_GREAT ∉ l) /\
  ((0 <= steps r)%Z -> (MSG_LESS_ACTIVE ∉ l) /\ (MSG_ACTIVE ∉ l)).
Proof.
  intros Hl.
  pose proof (insights_elem {| rows := [r]; anomaly := flags |} r l) as Helem.
  assert (mean_heart_rate {| rows := [r]; anomaly := flags |}
          == inject_Z (heart_rate r)) as Ehr.
  { unfold mean_heart_rate, mean, py_sum. cbn. field. }
  assert (mean_steps {| rows := [r]; anomaly := flags |}
          == inject_Z (steps r)) as Est.
  { unfold mean_steps, mean, py_sum. cbn. field. }
  split_and!.
  - intros Hin. apply (Helem _ eq_refl Hl) in Hin.
    decompose [or and] Hin; try discriminate. lra.
  - intros Hin. apply (Helem _ eq_refl Hl) in Hin.
    decompose [or and] Hin; try discriminate. lra.
  - intros Hst. rewrite Zle_Qle in Hst. change (inject_Z 0) with 0 in Hst.
    split; intros Hin; apply (Helem _ eq_refl Hl) in Hin;
      decompose [or and] Hin; try discriminate; lra.
Qed.

Lemma insights_length data latest l :
  last (rows data) = Some latest ->
  generate_health_insights data = Ok l ->
  (1 <= length l <= 5)%nat.
Proof.
  intros Hlast Hl. rewrite (generate_health_insights_Ok _ _ Hlast) in Hl.
  injection Hl as <-. rewrite !length_app.
  assert (length (heart_rate_rule data latest) <= 1)%nat
    by (unfold heart_rate_rule; cbv zeta; repeat destruct (Qlt_le_dec _ _); cbn; lia).
  assert (length (oxygen_rule latest) = 1)%nat
    by (unfold oxygen_rule; destruct (Qlt_le_dec _ _); reflexivity).
  assert (length (activity_rule data latest) <= 1)%nat
    by (unfold activity_rule; cbv zeta; repeat destruct (Qlt_le_dec _ _); cbn; lia).
  assert (length (sleep_rule latest) <= 1)%nat
    by (unfold sleep_rule; repeat destruct (Qlt_le_dec _ _); cbn; lia).
  assert (length (stress_rule latest) <= 1)%nat
    by (unfold stress_rule; repeat destruct (Qlt_le_dec _ _); cbn; lia).
  lia.
Qed.

Section Dashboard.
Context `{NumpyRandom} `{NumpyMath} `{Sklearn}.

(** X16. The start of [main]: a dataset generated for at least one
    sample has no anomaly column, so listing its anomalies would raise;
    once [detect_anomalies] has returned, there is one flag per sample,
    the score is between 0 and 100, between one and five insights are
    produced, and the anomalies listed are at most as many as the
    samples. *)
Theorem dashboard_pipeline now days samples_per_day g self df self1 data1 :
  (1 <= days * samples_per_day)%Z ->
  (generate_sample_data now days samples_per_day g).1 = Ok df ->
  detect_anomalies self df = Ok (self1, data1) ->
  anomalies df = None /\
  exists v l flags flagged,
    calculate_health_score data1 = Ok v /\ 0 <= v <= 100 /\
    generate_health_insights data1 = Ok l /\ (1 <= length l <= 5)%nat /\
    anomaly data1 = Some flags /\
    length flags = Z.to_nat (days * samples_per_day) /\
    anomalies data1 = Some flagged /\
    (length flagged <= Z.to_nat (days * samples_per_day))%nat.
Proof.
  intros Hn Hdf Hrun.
  destruct (generate_sample_data_Ok_window _ _ _ _ _ Hdf) as [Hw _].
  destruct (generate_sample_data_anatomy now days samples_per_day g Hw
              ltac:(lia))
    as (? & ? & df' & _ & _ & _ & _ & _ & _ & _ & Hdf' & Hanom & _).
  rewrite Hdf in Hdf'. injection Hdf' as <-.
  destruct (generate_sample_data_rows _ _ _ _ _ Hdf)
    as (? & ? & ? & ? & _ & _ & Hrlen & _).
  destruct (generated_row_ranges _ _ _ _ _ Hdf) as (idx & _ & _ & Hrows).
  apply detect_anomalies_inv in Hrun
    as (fs & X & ff & an & _ & _ & Hlen & -> & _).
  split; [unfold anomalies, flagged_rows; by rewrite Hanom|].
  destruct (lookup_lt_is_Some_2 (rows df) (pred (length (rows df))))
    as [latest Hlatest]; [lia|].
  assert (last (rows df) = Some latest) as Hlast by (by rewrite last_lookup).
  assert ((Z.abs (heart_rate latest - 70) < 4611686018427387904)%Z /\
          0 <= blood_oxygen latest /\ (0 <= steps latest)%Z /\
          0 <= sleep_quality latest <= 10 /\ 0 <= stress_level latest <= 10)
    as (Hhr & Hox & Hst & Hsl & Hsr).
  { destruct (Hrows _ _ Hlatest) as [Hdom Hout].
    destruct (decide (pred (length (rows df)) ∈ idx)) as [Hi|Hi].
    - destruct (Hout Hi) as (? & ? & ? & ? & ? & _).
      split_and!; auto; first [lra | lia].
    - destruct (Hdom Hi) as (? & ? & ? & ? & ? & _).
      split_and!; auto; first [lra | lia]. }
  destruct (score_range_of_plausible_sample
              {| rows := rows df;
                 anomaly := Some (map (fun a => Z.eqb a (-1)) an) |}
              latest Hlast Hhr Hox Hst Hsl Hsr) as (v & Hv & Hrange).
  destruct (generate_health_insights
              {| rows := rows df;
                 anomaly := Some (map (fun a => Z.eqb a (-1)) an) |})
    as [l|e] eqn:El.
  2:{ rewrite (generate_health_insights_Ok _ latest) in El; done. }
  pose proof (insights_length _ latest _ Hlast El) as Hil.
  exists v, l, (map (fun a => Z.eqb a (-1)) an).
  eexists.
  split; [exact Hv|]. split; [exact Hrange|].
  split; [reflexivity|]. split; [exact Hil|].
  split; [reflexivity|].
  split; [rewrite length_map; congruence|].
  split; [reflexivity|].
  rewrite length_fmap. etrans; [apply length_filter|].
  rewrite length_zip_with. cbn [rows]. lia.
Qed.
End Dashboard.

(** ** Concrete runs, continued *)

Lemma generate_two_samples :
  (generate_with_stand_ins 0 1 2 7%nat).1 = Ok two_samples.
Proof. by vm_compute. Qed.


(** The stand-in detector returns on every dataset with a row. *)
Lemma detect_with_stand_ins_Ok self data :
  rows data <> [] ->
  exists self1 data1, detect_with_stand_ins self data = Ok (self1, data1).
Proof.
  intros Hne. unfold detect_with_stand_ins, detect_anomalies.
  cbn [StandardScaler_fit_transform IsolationForest_fit_predict StandIn_Sklearn].
  unfold StandIn.fit_transform.
  destruct (map features (rows data)) as [|row X] eqn:EX.
  { destruct (rows data); [done|discriminate EX]. }
  unfold StandIn.fit_predict, set_anomaly.
  rewrite decide_True; [by eexists _, _|].
  rewrite !length_map, <- EX. by rewrite length_map.
Qed.

Lemma detect_anomalies_ignores_history_witness :
  exists self1 data1 self1',
    detect_with_stand_ins HealthMonitor_init two_samples = Ok (self1, data1) /\
    detect_with_stand_ins used_monitor two_samples_flagged = Ok (self1', data1) /\
    scaler self1' = scaler self1 /\
    anomaly_detector self1' = anomaly_detector self1.
Proof.
  destruct (detect_with_stand_ins_Ok HealthMonitor_init two_samples ltac:(done))
    as (self1 & data1 & Erun).
  destruct (@detect_anomalies_ignores_history StandIn_Sklearn
              HealthMonitor_init used_monitor two_samples two_samples_flagged
              self1 data1 eq_refl eq_refl eq_refl Erun)
    as (self1' & Hrun' & Hs & Hf).
  exists self1, data1, self1'. auto.
Defined.

Lemma detect_anomalies_keeps_score_and_insights_witness :
  exists self1 data1,
    detect_with_stand_ins HealthMonitor_init two_samples = Ok (self1, data1) /\
    calculate_health_score data1 = calculate_health_score two_samples /\
    generate_health_insights data1 = generate_health_insights two_samples.
Proof.
  destruct (detect_with_stand_ins_Ok HealthMonitor_init two_samples ltac:(done))
    as (self1 & data1 & Erun).
  exists self1, data1. split; [exact Erun|].
  exact (@detect_anomalies_keeps_score_and_insights StandIn_Sklearn
           _ _ _ _ Erun).
Defined.

Lemma generate_spans_requested_window_witness :
  (forall first, rows two_samples !! 0%nat = Some first ->
                 timestamp first = (0 - 1 * ns_per_day)%Z) /\
  (forall latest, (2 <= 1 * 2)%Z ->
                  last (rows two_samples) = Some latest ->
                  timestamp latest = 0%Z).
Proof.
  apply (@generate_spans_requested_window StandIn_NumpyRandom StandIn_NumpyMath
           0 1 2 7%nat two_samples).
  exact generate_two_samples.
Defined.

Lemma generate_timestamps_increase_witness :
  (-86400000000000 < 0)%Z.
Proof.
  apply (@generate_timestamps_increase StandIn_NumpyRandom StandIn_NumpyMath
           0 1 2 7%nat two_samples 0%nat 1%nat
           {| timestamp := -86400000000000; heart_rate := 63;
              blood_oxygen := 484 # 5; steps := 450;
              sleep_quality := 61 # 10; stress_level := 49 # 10;
              body_temperature := 981 # 10 |}
           {| timestamp := 0; heart_rate := 58;
              blood_oxygen := 197 # 2; steps := 625;
              sleep_quality := 28 # 5; stress_level := 22 # 5;
              body_temperature := 99 |}).
  - lia.
  - by vm_compute.
  - exact generate_two_samples.
  - reflexivity.
  - reflexivity.
  - lia.
Defined.

Lemma generated_fields_have_one_decimal_witness :
  exists ox sl sr bt : Z,
    197 # 2 == inject_Z ox / 10 /\
    28 # 5 == inject_Z sl / 10 /\
    22 # 5 == inject_Z sr / 10 /\
    99 == inject_Z bt / 10.
Proof.
  apply (@generated_fields_have_one_decimal StandIn_NumpyRandom StandIn_NumpyMath
           0 1 2 7%nat two_samples 1%nat
           {| timestamp := 0; heart_rate := 58;
              blood_oxygen := 197 # 2; steps := 625;
              sleep_quality := 28 # 5; stress_level := 22 # 5;
              body_temperature := 99 |}).
  - exact generate_two_samples.
  - reflexivity.
Defined.

Lemma generated_rows_outside_domain_are_few_witness :
  exists idx : list nat,
    length idx = (Z.to_nat (1 * 2) / 20)%nat /\
    NoDup idx /\
    forall (i : nat) row, rows two_samples !! i = Some row -> ~ in_domain row ->
      i ∈ idx /\ in_outlier_range row.
Proof.
  apply (@generated_rows_outside_domain_are_few
           StandIn_NumpyRandom StandIn_NumpyMath 0 1 2 7%nat two_samples).
  exact generate_two_samples.
Defined.



Lemma insights_of_single_row_witness :
  (MSG_HR_ELEVATED ∉ [MSG_OXYGEN_OK; MSG_STRESS_LOW]) /\
  (MSG_HR_GREAT ∉ [MSG_OXYGEN_OK; MSG_STRESS_LOW]) /\
  ((0 <= steps scenario)%Z ->
   (MSG_LESS_ACTIVE ∉ [MSG_OXYGEN_OK; MSG_STRESS_LOW]) /\
   (MSG_ACTIVE ∉ [MSG_OXYGEN_OK; MSG_STRESS_LOW])).
Proof.
  apply (insights_of_single_row scenario None [MSG_OXYGEN_OK; MSG_STRESS_LOW]).
  reflexivity.
Defined.

Lemma dashboard_pipeline_witness :
  exists self1 data1,
    detect_with_stand_ins HealthMonitor_init two_samples = Ok (self1, data1) /\
    anomalies two_samples = None /\
    exists v l flags flagged,
      calculate_health_score data1 = Ok v /\ 0 <= v <= 100 /\
      generate_health_insights data1 = Ok l /\ (1 <= length l <= 5)%nat /\
      anomaly data1 = Some flags /\
      length flags = Z.to_nat (1 * 2) /\
      anomalies data1 = Some flagged /\
      (length flagged <= Z.to_nat (1 * 2))%nat.
Proof.
  destruct (detect_with_stand_ins_Ok HealthMonitor_init two_samples ltac:(done))
    as (self1 & data1 & Erun).
  exists self1, data1. split; [exact Erun|].
  apply (@dashboard_pipeline StandIn_NumpyRandom StandIn_NumpyMath
           StandIn_Sklearn 0 1 2 7%nat HealthMonitor_init two_samples
           self1 data1).
  - lia.
  - exact generate_two_samples.
  - exact Erun.
Defined.

